(** * Media Insights Engine operators: poll adapter and data lookup

    A shallow embedding of two operator Lambda functions,

    - [source/operators/rekognition/check_content_moderation_status.py]
    - [source/operators/rekognition/generic_data_lookup.py]

    Python values are a small JSON-like universe, dicts are finite maps
    with string keys, exceptions are an error result, and the calls to the
    outside world (Rekognition, the dataplane, S3, stdout) are recorded in
    a trace and answered by an explicit environment. *)

From Stdlib Require Import Ascii String.
From stdpp Require Import gmap strings list fin_maps.

Set Warnings "-register-all".

(** ** Python values *)

(** The values that JSON events and decoded JSON documents are made of.
    A float is kept as its bit pattern: the operators never compute with
    one. *)
Inductive pyval : Type :=
| PNone
| PBool (b : bool)
| PInt (z : Z)
| PFloat (bits : Z)
| PStr (s : string)
| PList (l : list pyval)
| PDict (d : gmap string pyval).

Abbreviation dict := (gmap string pyval).

(** Exceptions.  [MasExecutionError] carries the output object it was
    built from; [ExternalError] is any exception raised inside a library
    call (a boto3 client error, a codec or a JSON decoding error). *)
Inductive pyexn : Type :=
| KeyError (k : string)
| TypeError (msg : string)
| AttributeError (msg : string)
| UnboundLocalError (var : string)
| ExternalError (msg : string)
| MasExecutionError (o : dict).

(** [type(v).__name__] *)
Definition type_name (v : pyval) : string :=
  match v with
  | PNone => "NoneType"
  | PBool _ => "bool"
  | PInt _ => "int"
  | PFloat _ => "float"
  | PStr _ => "str"
  | PList _ => "list"
  | PDict _ => "dict"
  end.

(** [v == s] for a string literal [s]: only a [str] equals a [str]. *)
Definition py_eq_str (v : pyval) (s : string) : bool :=
  match v with
  | PStr t => bool_decide (t = s)
  | _ => false
  end.

(** [d[k]] on a dict. *)
Definition dict_getitem (d : dict) (k : string) : pyexn + pyval :=
  match d !! k with
  | Some v => inr v
  | None => inl (KeyError k)
  end.

(** [v[k]] with a string key [k]: a dict is looked up, every other value
    raises [TypeError] (a str or a list wants integer indices, the scalars
    are not subscriptable). *)
Definition py_getitem (v : pyval) (k : string) : pyexn + pyval :=
  match v with
  | PDict d => dict_getitem d k
  | PStr _ => inl (TypeError "string indices must be integers")
  | PList _ => inl (TypeError "list indices must be integers or slices, not str")
  | _ => inl (TypeError ("'" +:+ type_name v +:+ "' object is not subscriptable"))
  end.

(** [str(v)].  A [str] is itself; how the runtime prints any other value
    is left to [py_repr]. *)
Definition py_str (py_repr : pyval → string) (v : pyval) : string :=
  match v with
  | PStr s => s
  | _ => py_repr v
  end.

(** [str(e)] of a [KeyError] raised by a lookup with key [k]: the repr of
    the key.  The keys the operators subscript with are plain identifiers,
    whose repr is the key in single quotes. *)
Definition str_KeyError (k : string) : string := "'" +:+ k +:+ "'".

(** ** Effects *)

(** What an operator does to the outside world, in order. *)
Inductive call : Type :=
| GetContentModeration (JobId : pyval) (MaxResults : Z) (NextToken : pyval)
| StoreAssetMetadata (asset_id operator_name workflow_id results : pyval)
    (paginate end_ : option bool)
| S3GetObject (Bucket Key : pyval)
| Print (line : string).

(** What a remote call gives back: a mapping, or an exception. *)
Inductive reply : Type :=
| Answer (d : dict)
| Fails (msg : string).

Definition is_query (c : call) : bool :=
  match c with GetContentModeration _ _ _ => true | _ => false end.

Definition is_write (c : call) : bool :=
  match c with StoreAssetMetadata _ _ _ _ _ _ => true | _ => false end.

Definition is_fetch (c : call) : bool :=
  match c with S3GetObject _ _ => true | _ => false end.

(** The metadata writes and the status queries of a trace, in order. *)
Definition writes (t : list call) : list call := filter (λ c, is_write c = true) t.
Definition queries (t : list call) : list call := filter (λ c, is_query c = true) t.

(** A write is marked non-final when it is one page of more to come
    ([paginate=True, end=False]) and final when it is the last page
    ([paginate=True, end=True]); it is unmarked when neither keyword is
    passed: the whole result in one write. *)
Definition marked_non_final (c : call) : bool :=
  match c with
  | StoreAssetMetadata _ _ _ _ (Some true) (Some false) => true
  | _ => false
  end.

Definition marked_final (c : call) : bool :=
  match c with
  | StoreAssetMetadata _ _ _ _ (Some true) (Some true) => true
  | _ => false
  end.

Definition unmarked (c : call) : bool :=
  match c with
  | StoreAssetMetadata _ _ _ _ None None => true
  | _ => false
  end.

(** The result of running a piece of Python: a value, an exception, or
    the step budget of the model ran out (the [while] loop below has no
    bound of its own). *)
Inductive result (A : Type) : Type :=
| Val (a : A)
| Raise (e : pyexn)
| OutOfFuel.
Arguments Val {A} a.
Arguments Raise {A} e.
Arguments OutOfFuel {A}.

(** A computation over a store [S]. *)
Definition M (S A : Type) : Type := S → result A * S.

Definition ret {S A} (a : A) : M S A := λ s, (Val a, s).

Definition bind {S A B} (c : M S A) (k : A → M S B) : M S B :=
  λ s, match c s with
       | (Val a, s') => k a s'
       | (Raise e, s') => (Raise e, s')
       | (OutOfFuel, s') => (OutOfFuel, s')
       end.

Definition raise {S A} (e : pyexn) : M S A := λ s, (Raise e, s).

Definition out_of_fuel {S A} : M S A := λ s, (OutOfFuel, s).

(** A pure operation that may raise. *)
Definition lift {S A} (r : pyexn + A) : M S A :=
  match r with
  | inl e => raise e
  | inr a => ret a
  end.

(** [try: c  except KeyError as e: h e] *)
Definition try_KeyError {S A} (c : M S A) (h : string → M S A) : M S A :=
  λ s, match c s with
       | (Raise (KeyError k), s') => h k s'
       | r => r
       end.

(** [try: c  except Exception as e: h e] *)
Definition try_Exception {S A} (c : M S A) (h : pyexn → M S A) : M S A :=
  λ s, match c s with
       | (Raise e, s') => h e s'
       | r => r
       end.

(** The computations form a monad; stdpp's notations [x ← c; k] and
    [c ;; k] are used for sequencing. *)
Global Instance M_ret {S} : MRet (M S) := λ A, ret.
Global Instance M_bind {S} : MBind (M S) := λ A B k c, bind c k.

(** ** The output helper of the Lambda helper library *)

(** Modelled from the spec: the class [OutputHelper] of the package
    [MediaInsightsEngineLambdaHelper] is not among the sources.  The spec
    has the adapter return "a status object" and raise "a structured
    failure object containing the accumulated status context"; the tests
    read its ["Status"] and ["MetaData"] entries.  The object keeps the
    operator name, the workflow status and the metadata accumulated by
    [add_workflow_metadata], and [return_output_object] is the dict of
    these. *)
Record OutputHelper : Type := {
  name : pyval;
  status : pyval;
  metadata : dict;
  media : dict
}.

Definition update_status (st : string) (h : OutputHelper) : OutputHelper :=
  {| name := name h; status := PStr st; metadata := metadata h; media := media h |}.

(** [self.metadata.update({key: value})] for each keyword, in order. *)
Definition add_metadata (kw : list (string * pyval)) (h : OutputHelper) : OutputHelper :=
  {| name := name h; status := status h;
     metadata := foldl (λ m kv, <[kv.1 := kv.2]> m) (metadata h) kw;
     media := media h |}.

Definition output_dict (h : OutputHelper) : dict :=
  <["Name" := name h]> (<["Status" := status h]>
    (<["MetaData" := PDict (metadata h)]> (<["Media" := PDict (media h)]> ∅))).

(** The entries of an output object the orchestrator reads. *)
Definition Status_of (o : dict) : option pyval := o !! "Status".

Definition MetaData_of (o : dict) (k : string) : option pyval :=
  match o !! "MetaData" with
  | Some (PDict m) => m !! k
  | _ => None
  end.

(** The invocation ended by raising [MasExecutionError] on an output
    object whose [Status] is ["Error"]. *)
Definition failed_with_Error (r : result dict) : Prop :=
  ∃ o, r = Raise (MasExecutionError o) ∧ Status_of o = Some (PStr "Error").

(** The invocation returned an output object with the given [Status]. *)
Definition returned (r : result dict) (st : string) : Prop :=
  ∃ o, r = Val o ∧ Status_of o = Some (PStr st).

(** ** check_content_moderation_status.py *)

Module CheckContentModerationStatus.

(** The store of an invocation: the module-level [output_object], which
    lives on between invocations of a warm Lambda container, and the calls
    made so far. *)
Record state : Type := {
  output_object : OutputHelper;
  trace : list call
}.

(** The outside world: the answer to the [i]-th status query and to the
    [i]-th metadata write of the invocation (counted from 0). *)
Record world : Type := {
  rek_reply : nat → reply;
  store_reply : nat → reply
}.

Section Handler.

(** [py_repr] is the runtime's printing of values other than [str];
    [operator_name] is [os.environ['OPERATOR_NAME']]. *)
Context (py_repr : pyval → string) (operator_name : string) (env : world).

Definition emit (c : call) : M state unit :=
  λ s, (Val tt, {| output_object := output_object s; trace := trace s ++ [c] |}).

Definition update_workflow_status (st : string) : M state unit :=
  λ s, (Val tt, {| output_object := update_status st (output_object s); trace := trace s |}).

Definition add_workflow_metadata (kw : list (string * pyval)) : M state unit :=
  λ s, (Val tt, {| output_object := add_metadata kw (output_object s); trace := trace s |}).

Definition return_output_object : M state dict :=
  λ s, (Val (output_dict (output_object s)), s).

(** [raise MasExecutionError(output_object.return_output_object())] *)
Definition raise_mas {A} : M state A :=
  o ← return_output_object; raise (MasExecutionError o).

Definition print (line : string) : M state unit := emit (Print line).

Definition answer (r : reply) : M state dict :=
  match r with
  | Answer d => ret d
  | Fails msg => raise (ExternalError msg)
  end.

(** [rek.get_content_moderation(JobId=.., MaxResults=.., NextToken=..)] *)
Definition get_content_moderation (job_id : pyval) (max_results : Z) (token : pyval)
  : M state dict :=
  λ s, bind (emit (GetContentModeration job_id max_results token))
            (λ _, answer (rek_reply env (length (queries (trace s))))) s.

(** [dataplane.store_asset_metadata(asset_id=.., operator_name=..,
    workflow_id=.., results=.., paginate=.., end=..)]; an omitted keyword
    is [None] here. *)
Definition store_asset_metadata (asset_id workflow_id : pyval) (results : dict)
    (paginate end_ : option bool) : M state dict :=
  λ s, bind (emit (StoreAssetMetadata asset_id (PStr operator_name) workflow_id
                     (PDict results) paginate end_))
            (λ _, answer (store_reply env (length (writes (trace s))))) s.

Definition upload_error_asset (asset_id : pyval) : pyval :=
  PStr ("Unable to upload metadata for asset: " +:+ py_str py_repr asset_id).

(** The [while not finished] loop (lines 53-124), one iteration per unit
    of [fuel].  Every branch that sets [finished] also returns or raises,
    so the loop is left only that way; the branch that keeps [finished]
    false goes round again with the new token and [is_paginated] set. *)
Fixpoint poll (fuel : nat) (job_id asset_id workflow_id pagination_token : pyval)
    (is_paginated : bool) : M state dict :=
  match fuel with
  | O => out_of_fuel
  | S fuel' =>
    response ← get_content_moderation job_id 1000 pagination_token;
    job_status ← lift (dict_getitem response "JobStatus");
    if py_eq_str job_status "IN_PROGRESS" then
      update_workflow_status "Executing" ;;
      add_workflow_metadata [("ContentModerationJobId", job_id); ("AssetId", asset_id);
                             ("WorkflowExecutionId", workflow_id)] ;;
      return_output_object
    else if py_eq_str job_status "FAILED" then
      update_workflow_status "Error" ;;
      message ← lift (dict_getitem response "StatusMessage");
      add_workflow_metadata [("ContentModerationJobId", job_id);
                             ("ContentModerationError", PStr (py_str py_repr message))] ;;
      raise_mas
    else if py_eq_str job_status "SUCCEEDED" then
      match response !! "NextToken" with
      | Some next_token =>
        metadata_upload ← store_asset_metadata asset_id workflow_id response
                             (Some true) (Some false);
        match metadata_upload !! "Status" with
        | None =>
          update_workflow_status "Error" ;;
          add_workflow_metadata [("ContentModerationError", upload_error_asset asset_id);
                                 ("ContentModerationJobId", job_id)] ;;
          raise_mas
        | Some upload_status =>
          if py_eq_str upload_status "Success" then
            print ("Uploaded metadata for asset: " +:+ py_str py_repr asset_id) ;;
            poll fuel' job_id asset_id workflow_id next_token true
          else if py_eq_str upload_status "Failed" then
            update_workflow_status "Error" ;;
            add_workflow_metadata [("ContentModerationError", upload_error_asset asset_id);
                                   ("ContentModerationJobId", job_id)] ;;
            raise_mas
          else
            update_workflow_status "Error" ;;
            add_workflow_metadata [("ContentModerationError", upload_error_asset asset_id);
                                   ("ContentModerationJobId", job_id)] ;;
            raise_mas
        end
      | None =>
        metadata_upload ←
          (if is_paginated
           then store_asset_metadata asset_id workflow_id response (Some true) (Some true)
           else store_asset_metadata asset_id workflow_id response None None);
        match metadata_upload !! "Status" with
        | None =>
          update_workflow_status "Error" ;;
          add_workflow_metadata
            [("ContentModerationError",
              PStr ("Unable to upload metadata for " +:+ py_str py_repr asset_id +:+ ": "
                    +:+ py_str py_repr (PDict metadata_upload)))] ;;
          raise_mas
        | Some upload_status =>
          if py_eq_str upload_status "Success" then
            print ("Uploaded metadata for asset: " +:+ py_str py_repr asset_id) ;;
            add_workflow_metadata [("LabelDetectionJobId", job_id)] ;;
            update_workflow_status "Complete" ;;
            return_output_object
          else if py_eq_str upload_status "Failed" then
            update_workflow_status "Error" ;;
            add_workflow_metadata [("ContentModerationError", upload_error_asset asset_id)] ;;
            raise_mas
          else
            update_workflow_status "Error" ;;
            add_workflow_metadata [("ContentModerationError", upload_error_asset asset_id)] ;;
            add_workflow_metadata [("PersonTrackingJobId", job_id)] ;;
            raise_mas
        end
      end
    else
      update_workflow_status "Error" ;;
      add_workflow_metadata [("ContentModerationError", PStr "Unable to determine status")] ;;
      raise_mas
  end.

(** [lambda_handler(event, context)]; [fuel] bounds the iterations of the
    loop. *)
Definition lambda_handler (fuel : nat) (event : dict) : M state dict :=
  '(status, asset_id) ←
    try_KeyError
      (status ← lift (dict_getitem event "Status");
       meta ← lift (dict_getitem event "MetaData");
       asset_id ← lift (py_getitem meta "AssetId");
       ret (status, asset_id))
      (λ e,
       update_workflow_status "Error" ;;
       add_workflow_metadata
         [("ContentModerationError", PStr ("Missing key " +:+ str_KeyError e))] ;;
       raise_mas);
  if py_eq_str status "Complete" then
    update_workflow_status "Complete" ;;
    return_output_object
  else
    '(job_id, workflow_id) ←
      try_KeyError
        (meta ← lift (dict_getitem event "MetaData");
         job_id ← lift (py_getitem meta "ContentModerationJobId");
         meta' ← lift (dict_getitem event "MetaData");
         workflow_id ← lift (py_getitem meta' "WorkflowExecutionId");
         ret (job_id, workflow_id))
        (λ e,
         update_workflow_status "Error" ;;
         add_workflow_metadata
           [("ContentModerationError",
             PStr ("Missing a required metadata key " +:+ str_KeyError e))] ;;
         raise_mas);
    poll fuel job_id asset_id workflow_id (PStr "") false.

End Handler.

(** *** Vocabulary for the statements about the handler *)

(** A fresh invocation: nothing called yet; [h] is the [output_object]
    as earlier invocations left it. *)
Definition fresh (h : OutputHelper) : state := {| output_object := h; trace := [] |}.

(** The state after further calls. *)
Definition after (s : state) (cs : list call) : state :=
  {| output_object := output_object s; trace := trace s ++ cs |}.

(** The calls of one round of the loop that stores a page and goes
    round again: the query, the write, the log line. *)
Definition page_calls (py_repr : pyval → string) (operator_name : string)
    (j a w t : pyval) (d : dict) : list call :=
  [GetContentModeration j 1000 t;
   StoreAssetMetadata a (PStr operator_name) w (PDict d) (Some true) (Some false);
   Print ("Uploaded metadata for asset: " +:+ py_str py_repr a)].

(** The event's [MetaData] is a mapping that has key [k] with value [v]. *)
Definition carries (event : dict) (k : string) (v : pyval) : Prop :=
  ∃ meta, event !! "MetaData" = Some (PDict meta) ∧ meta !! k = Some v.

(** The event has no [MetaData], or its [MetaData] is a mapping without
    key [k]. *)
Definition lacks (event : dict) (k : string) : Prop :=
  event !! "MetaData" = None ∨
  ∃ meta, event !! "MetaData" = Some (PDict meta) ∧ meta !! k = None.

(** The reported [JobStatus] of a response. *)
Definition job_status (r : reply) : option pyval :=
  match r with
  | Answer d => d !! "JobStatus"
  | Fails _ => None
  end.

Definition next_token (r : reply) : option pyval :=
  match r with
  | Answer d => d !! "NextToken"
  | Fails _ => None
  end.

(** A page with more to come: SUCCEEDED and carrying a [NextToken]. *)
Definition more_pages (r : reply) : bool :=
  match job_status r, next_token r with
  | Some js, Some _ => py_eq_str js "SUCCEEDED"
  | _, _ => false
  end.

(** The last page: SUCCEEDED without a [NextToken]. *)
Definition last_page (r : reply) : bool :=
  match job_status r, next_token r with
  | Some js, None => py_eq_str js "SUCCEEDED"
  | _, _ => false
  end.

(** The write was answered by a mapping whose [Status] is ["Success"]. *)
Definition upload_ok (r : reply) : bool :=
  match r with
  | Answer u =>
    match u !! "Status" with
    | Some v => py_eq_str v "Success"
    | None => false
    end
  | Fails _ => false
  end.

(** The write was answered by a mapping with no [Status], or with a
    [Status] other than ["Success"]. *)
Definition upload_bad (r : reply) : bool :=
  match r with
  | Answer u => negb (upload_ok r)
  | Fails _ => false
  end.

End CheckContentModerationStatus.

(** ** Strings, as generic_data_lookup.py uses them *)

(** [needle in s] on strings: [needle] occurs in [s]. *)
Fixpoint str_contains (needle s : string) : bool :=
  String.prefix needle s ||
  match s with
  | EmptyString => false
  | String _ s' => str_contains needle s'
  end.

(** [s.split(sep)] for a one-character separator. *)
Fixpoint split (sep : Ascii.ascii) (s : string) : list string :=
  match s with
  | EmptyString => [EmptyString]
  | String c s' =>
    if decide (c = sep) then EmptyString :: split sep s'
    else match split sep s' with
         | [] => [String c EmptyString]
         | w :: ws => String c w :: ws
         end
  end.

(** [sep.join(parts)] *)
Fixpoint join (sep : string) (parts : list string) : string :=
  match parts with
  | [] => EmptyString
  | [w] => w
  | w :: ws => w +:+ sep +:+ join sep ws
  end.

(** [needle in v]: a key of a dict, an element of a list, a substring of
    a str; the scalars are not iterable. *)
Definition py_contains (needle : string) (v : pyval) : pyexn + bool :=
  match v with
  | PDict d => inr (bool_decide (is_Some (d !! needle)))
  | PList l => inr (existsb (λ x, py_eq_str x needle) l)
  | PStr s => inr (str_contains needle s)
  | _ => inl (TypeError ("argument of type '" +:+ type_name v +:+ "' is not iterable"))
  end.

Definition dquote : string :=
  String (Ascii.Ascii false true false false false true false false) EmptyString.

(** The message of the [TypeError] of [str + v] for a [v] that is no
    [str]. *)
Definition concat_error (v : pyval) : string :=
  "can only concatenate str (not " +:+ dquote +:+ type_name v +:+ dquote +:+ ") to str".

(** [str(e)] *)
Definition str_exn (py_repr : pyval → string) (e : pyexn) : string :=
  match e with
  | KeyError k => str_KeyError k
  | TypeError msg => msg
  | AttributeError msg => msg
  | UnboundLocalError var =>
    "local variable '" +:+ var +:+ "' referenced before assignment"
  | ExternalError msg => msg
  | MasExecutionError o => py_repr (PDict o)
  end.

(** ** generic_data_lookup.py *)

Module GenericDataLookup.

(** Modelled from the spec: the class [MediaInsightsOperationHelper] of
    the package [MediaInsightsEngineLambdaHelper] is not among the
    sources.  It is a status object like [OutputHelper] that also carries
    the operator's [input] and [configuration], which the handler reads,
    and the asset and workflow identifiers; its output object is the
    dict of all of these. *)
Record OperationHelper : Type := {
  base : OutputHelper;
  asset_id_of : pyval;
  workflow_execution_id_of : pyval;
  input : pyval;
  configuration : pyval
}.

Definition with_base (f : OutputHelper → OutputHelper) (h : OperationHelper)
  : OperationHelper :=
  {| base := f (base h); asset_id_of := asset_id_of h;
     workflow_execution_id_of := workflow_execution_id_of h;
     input := input h; configuration := configuration h |}.

Definition operation_output (h : OperationHelper) : dict :=
  <["AssetId" := asset_id_of h]> (<["WorkflowExecutionId" := workflow_execution_id_of h]>
    (<["Input" := input h]> (<["Configuration" := configuration h]>
      (output_dict (base h))))).

Record state : Type := {
  operator_object : OperationHelper;
  trace : list call
}.

(** The outside world: what fetching and decoding the JSON document at
    a bucket and key gives (the decoded value, or the message of the
    exception raised by [get_object], [read], [decode] or [json.loads]),
    and the answer of the dataplane to the metadata write. *)
Record world : Type := {
  s3_json : pyval → pyval → string + pyval;
  store_reply : reply
}.

Section Handler.

(** [py_repr] is the runtime's printing of values other than [str];
    [new_helper] is the constructor [MediaInsightsOperationHelper(event)],
    which may raise. *)
Context (py_repr : pyval → string)
        (new_helper : dict → pyexn + OperationHelper)
        (env : world).

Definition emit (c : call) : M state unit :=
  λ s, (Val tt, {| operator_object := operator_object s; trace := trace s ++ [c] |}).

Definition print (line : string) : M state unit := emit (Print line).

Definition update_workflow_status (st : string) : M state unit :=
  λ s, (Val tt, {| operator_object := with_base (update_status st) (operator_object s);
                   trace := trace s |}).

Definition add_workflow_metadata (kw : list (string * pyval)) : M state unit :=
  λ s, (Val tt, {| operator_object := with_base (add_metadata kw) (operator_object s);
                   trace := trace s |}).

Definition return_output_object : M state dict :=
  λ s, (Val (operation_output (operator_object s)), s).

Definition raise_mas {A} : M state A :=
  o ← return_output_object; raise (MasExecutionError o).

Definition get : M state OperationHelper := λ s, (Val (operator_object s), s).

(** [key.split('.')[-1]]: defined on a [str] only. *)
Definition file_type_of (key : pyval) : pyexn + string :=
  match key with
  | PStr k => inr (List.last (split "."%char k) EmptyString)
  | _ => inl (AttributeError ("'" +:+ type_name key +:+ "' object has no attribute 'split'"))
  end.

(** One branch of lines 47-62: the bucket and key of one media type. *)
Definition media_location (kind : string) : M state (pyval * pyval) :=
  h ← get;
  media ← lift (py_getitem (input h) "Media");
  object ← lift (py_getitem media kind);
  bucket ← lift (py_getitem object "S3Bucket");
  media' ← lift (py_getitem (input h) "Media");
  object' ← lift (py_getitem media' kind);
  key ← lift (py_getitem object' "S3Key");
  _ ← lift (file_type_of key);
  mret (bucket, key).

(** ["kind" in operator_object.input["Media"]] *)
Definition has_media (kind : string) : M state bool :=
  h ← get;
  media ← lift (py_getitem (input h) "Media");
  lift (py_contains kind media).

(** Lines 44-66.  [bucket] and [key] stay unbound ([None]) when no media
    type is present. *)
Definition get_parameters (event : dict) : M state (string * pyval * option (pyval * pyval)) :=
  try_Exception
    (wid ← lift (dict_getitem event "WorkflowExecutionId");
     let workflow_id := py_str py_repr wid in
     asset_id ← lift (dict_getitem event "AssetId");
     video ← has_media "Video";
     if video : bool then
       loc ← media_location "Video"; mret (workflow_id, asset_id, Some loc)
     else
       audio ← has_media "Audio";
       if audio : bool then
         loc ← media_location "Audio"; mret (workflow_id, asset_id, Some loc)
       else
         image ← has_media "Image";
         if image : bool then
           loc ← media_location "Image"; mret (workflow_id, asset_id, Some loc)
         else
           text ← has_media "Text";
           if text : bool then
             loc ← media_location "Text"; mret (workflow_id, asset_id, Some loc)
           else mret (workflow_id, asset_id, None))
    (λ _,
     update_workflow_status "Error" ;;
     add_workflow_metadata [("GenericDataLookupError", PStr "No valid inputs")] ;;
     raise_mas).

(** [prefix + v] for a str [prefix]. *)
Definition concat (prefix : string) (v : pyval) : pyexn + string :=
  match v with
  | PStr s => inr (prefix +:+ s)
  | _ => inl (TypeError (concat_error v))
  end.

(** Lines 70-75: the user-defined file name, or the media file name with
    its extension replaced by [json]. *)
Definition get_metadata_filename (key : string) : M state pyval :=
  h ← get;
  user_defined ← lift (py_contains "Filename" (configuration h));
  if user_defined : bool then
    lift (py_getitem (configuration h) "Filename")
  else
    let media_filename := List.last (split "/"%char key) EmptyString in
    mret (PStr (join "." (removelast (split "."%char media_filename)) +:+ ".json")).

(** Lines 79-86: fetch and decode the document. *)
Definition get_metadata (bucket : string) (metadata_filename : pyval) : M state pyval :=
  try_Exception
    (line ← lift (concat ("Getting data from s3://" +:+ bucket +:+ "/") metadata_filename);
     print line ;;
     emit (S3GetObject (PStr bucket) metadata_filename) ;;
     match s3_json env (PStr bucket) metadata_filename with
     | inl msg => raise (ExternalError msg)
     | inr metadata_json => mret metadata_json
     end)
    (λ e,
     update_workflow_status "Error" ;;
     add_workflow_metadata
       [("GenericDataLookupError", PStr ("Unable read datafile. " +:+ str_exn py_repr e))] ;;
     raise_mas).

Definition upload_error (asset_id : pyval) : pyval :=
  PStr ("Unable to upload metadata for asset: " +:+ py_str py_repr asset_id).

(** The handler after [operator_object] has been built. *)
Definition handle (event : dict) : M state dict :=
  '(workflow_id, asset_id, location) ← get_parameters event;
  '(bucket, key) ←
    match location with
    | None => raise (UnboundLocalError "bucket")
    | Some (PStr bucket, PStr key) => mret (bucket, key)
    | Some (PStr _, key) => raise (TypeError (concat_error key))
    | Some (bucket, _) => raise (TypeError (concat_error bucket))
    end;
  print ("Looking up metadata for s3://" +:+ bucket +:+ "/" +:+ key) ;;
  metadata_filename ← get_metadata_filename key;
  metadata_json ← get_metadata bucket metadata_filename;
  match metadata_json with
  | PDict metadata =>
    h ← get;
    add_workflow_metadata [("AssetId", asset_id); ("WorkflowExecutionId", PStr workflow_id)] ;;
    emit (StoreAssetMetadata asset_id (name (base h)) (PStr workflow_id) metadata_json
            None None) ;;
    match store_reply env with
    | Fails msg => raise (ExternalError msg)
    | Answer metadata_upload =>
      match metadata_upload !! "Status" with
      | None =>
        add_workflow_metadata [("GenericDataLookupError", upload_error asset_id)] ;;
        update_workflow_status "Error" ;;
        raise_mas
      | Some upload_status =>
        if py_eq_str upload_status "Success" then
          print ("Uploaded metadata for asset: " +:+ py_str py_repr asset_id) ;;
          update_workflow_status "Complete" ;;
          return_output_object
        else
          add_workflow_metadata [("GenericDataLookupError", upload_error asset_id)] ;;
          update_workflow_status "Error" ;;
          raise_mas
      end
    end
  | _ =>
    update_workflow_status "Error" ;;
    add_workflow_metadata
      [("GenericDataLookupError",
        PStr ("Metadata must be of type dict. Found <class '" +:+ type_name metadata_json
              +:+ "'> instead."))] ;;
    raise_mas
  end.

(** [lambda_handler(event, context)]: the result and the calls made. *)
Definition lambda_handler (event : dict) : result dict * list call :=
  match new_helper event with
  | inl e => (Raise e, [])
  | inr h =>
    let r := handle event {| operator_object := h; trace := [] |} in
    (r.1, trace r.2)
  end.

End Handler.

(** *** Vocabulary for the statements about the handler *)

(** The document could not be read, or it decodes to something that is
    no mapping. *)
Definition unusable (document : string + pyval) : bool :=
  match document with
  | inr (PDict _) => false
  | _ => true
  end.

(** A computation that calls nothing: it leaves the trace as it is. *)
Definition quiet {A} (c : M state A) : Prop :=
  ∀ s r s', c s = (r, s') → trace s' = trace s.

End GenericDataLookup.

(** ** Concrete events and environments *)

Module Scenarios.

(** A runtime that prints every value that is no [str] the same way. *)
Definition plain_repr : pyval → string := λ _, "<value>".

(** The output helper of a freshly loaded module. *)
Definition idle : OutputHelper :=
  {| name := PStr "contentModeration"; status := PStr ""; metadata := ∅; media := ∅ |}.

Definition asset_only : dict := {[ "AssetId" := PStr "asset-1" ]}.

Definition all_ids : dict :=
  <["ContentModerationJobId" := PStr "j1"]>
    (<["WorkflowExecutionId" := PStr "wf-1"]> asset_only).

(** An event of a running job, with every key the handler reads. *)
Definition polling : dict :=
  <["Status" := PStr "Executing"]> {[ "MetaData" := PDict all_ids ]}.

(** An event that reports completion and nothing else. *)
Definition complete_bare : dict := {[ "Status" := PStr "Complete" ]}.

(** An event of an image, processed already: no job was started. *)
Definition complete_image : dict :=
  <["Status" := PStr "Complete"]> {[ "MetaData" := PDict asset_only ]}.

(** An event in status Error that has no job id. *)
Definition error_no_job : dict :=
  <["Status" := PStr "Error"]> {[ "MetaData" := PDict asset_only ]}.

Definition page (token : string) : dict :=
  <["NextToken" := PStr token]> {[ "JobStatus" := PStr "SUCCEEDED" ]}.

Definition final_page : dict := {[ "JobStatus" := PStr "SUCCEEDED" ]}.

Definition in_progress : dict := {[ "JobStatus" := PStr "IN_PROGRESS" ]}.

Definition failed : dict :=
  <["StatusMessage" := PStr "video could not be read"]> {[ "JobStatus" := PStr "FAILED" ]}.

Definition paused : dict := {[ "JobStatus" := PStr "PAUSED" ]}.

Definition success : dict := {[ "Status" := PStr "Success" ]}.

Definition no_status : dict := {[ "Message" := PStr "table not found" ]}.

Definition script (answers : list dict) (i : nat) : reply :=
  match answers !! i with
  | Some d => Answer d
  | None => Fails "no further answer"
  end.

(** The service answers with the given responses, the dataplane with the
    given results, in order. *)
Definition scripted (responses uploads : list dict) : CheckContentModerationStatus.world :=
  {| CheckContentModerationStatus.rek_reply := script responses;
     CheckContentModerationStatus.store_reply := script uploads |}.

(** One invocation in a fresh container. *)
Definition invoke (responses uploads : list dict) (fuel : nat) (event : dict)
  : result dict * CheckContentModerationStatus.state :=
  CheckContentModerationStatus.lambda_handler plain_repr "contentModeration"
    (scripted responses uploads) fuel event (CheckContentModerationStatus.fresh idle).

(** A helper built from an event that has [Input] and [Configuration]. *)
Definition helper_of (event : dict) : pyexn + GenericDataLookup.OperationHelper :=
  match event !! "Input", event !! "Configuration" with
  | Some i, Some c =>
    inr {| GenericDataLookup.base :=
             {| name := PStr "GenericDataLookup"; status := PStr "Started";
                metadata := ∅; media := ∅ |};
           GenericDataLookup.asset_id_of := default PNone (event !! "AssetId");
           GenericDataLookup.workflow_execution_id_of :=
             default PNone (event !! "WorkflowExecutionId");
           GenericDataLookup.input := i;
           GenericDataLookup.configuration := c |}
  | None, _ => inl (KeyError "Input")
  | _, None => inl (KeyError "Configuration")
  end.

(** A video in the dataplane bucket, no user-defined file name. *)
Definition video_event : dict :=
  <["WorkflowExecutionId" := PStr "wf-1"]> (<["AssetId" := PStr "asset-1"]>
    (<["Configuration" := PDict ∅]>
      {[ "Input" := PDict {[ "Media" := PDict {[ "Video" :=
           PDict (<["S3Bucket" := PStr "dataplane"]>
                    {[ "S3Key" := PStr "Demo Video 01.mp4" ]}) ]} ]} ]})).

(** The document is a JSON list; the dataplane would accept anything. *)
Definition list_document : GenericDataLookup.world :=
  {| GenericDataLookup.s3_json := λ _ _, inr (PList [PInt 1; PInt 2]);
     GenericDataLookup.store_reply := Answer success |}.

(** There is no such document. *)
Definition no_document : GenericDataLookup.world :=
  {| GenericDataLookup.s3_json := λ _ _, inl "NoSuchKey";
     GenericDataLookup.store_reply := Answer success |}.

End Scenarios.

(** ** Further vocabulary for the poll adapter *)

(** The pagination token the [i]-th status query of an invocation
    carries: the empty string at first, then the [NextToken] of the
    response before. *)
Definition token_for (env : CheckContentModerationStatus.world) (i : nat) : option pyval :=
  match i with
  | O => Some (PStr "")
  | S i' => CheckContentModerationStatus.next_token (CheckContentModerationStatus.rek_reply env i')
  end.

(** A status query that asks for job [j] with the token that is due at
    position [i]. *)
Definition asks (env : CheckContentModerationStatus.world) (j : pyval) (i : nat) (c : call)
  : Prop :=
  ∃ t, token_for env i = Some t ∧ c = GetContentModeration j 1000 t.

(** ** Further events and responses *)

Module MoreScenarios.

(** A FAILED response that gives no reason. *)
Definition failed_bare : dict := {[ "JobStatus" := PStr "FAILED" ]}.

(** An event whose MetaData is a string. *)
Definition metadata_text : dict :=
  <["Status" := PStr "Executing"]> {[ "MetaData" := PStr "asset-1" ]}.

(** A video under a directory prefix. *)
Definition video_at (key : string) (configuration : dict) : dict :=
  <["WorkflowExecutionId" := PStr "wf-1"]> (<["AssetId" := PStr "asset-1"]>
    (<["Configuration" := PDict configuration]>
      {[ "Input" := PDict {[ "Media" := PDict {[ "Video" :=
           PDict (<["S3Bucket" := PStr "dataplane"]> {[ "S3Key" := PStr key ]}) ]} ]} ]})).

Definition video_location (key : string) : dict :=
  <["S3Bucket" := PStr "dataplane"]> {[ "S3Key" := PStr key ]}.

(** An input whose Media names no media type. *)
Definition no_media_event : dict :=
  <["WorkflowExecutionId" := PStr "wf-1"]> (<["AssetId" := PStr "asset-1"]>
    (<["Configuration" := PDict ∅]> {[ "Input" := PDict {[ "Media" := PDict ∅ ]} ]})).

(** An event without AssetId. *)
Definition no_asset_event : dict :=
  <["WorkflowExecutionId" := PStr "wf-1"]>
    (<["Configuration" := PDict ∅]> {[ "Input" := PDict {[ "Media" := PDict ∅ ]} ]}).

Definition labels : dict := {[ "Labels" := PList [PStr "Violence"] ]}.

(** The document is a dict and the dataplane stores it. *)
Definition dict_document : GenericDataLookup.world :=
  {| GenericDataLookup.s3_json := λ _ _, inr (PDict labels);
     GenericDataLookup.store_reply := Answer Scenarios.success |}.

(** The document is a dict and the dataplane answers without Status. *)
Definition dict_document_not_stored : GenericDataLookup.world :=
  {| GenericDataLookup.s3_json := λ _ _, inr (PDict labels);
     GenericDataLookup.store_reply := Answer Scenarios.no_status |}.

End MoreScenarios.

(** ** Further vocabulary for the data lookup *)

(** A computation that, when it gives a value, has left the store as it
    was. *)
Definition steady {A} (c : M GenericDataLookup.state A) : Prop :=
  ∀ s a s', c s = (Val a, s') → s' = s.

(** The character occurs in the string. *)
Fixpoint occurs (c : Ascii.ascii) (s : string) : bool :=
  match s with
  | EmptyString => false
  | String c' s' => bool_decide (c' = c) || occurs c s'
  end.

(** The name of the metadata file that lines 74-75 derive from a media
    key. *)
Definition default_metadata_filename (key : string) : string :=
  let media_filename := List.last (split "/"%char key) EmptyString in
  join "." (removelast (split "."%char media_filename)) +:+ ".json".

(** ** anonymous-data-logger.py *)

Definition newline : string := String "010"%char EmptyString.

(** The message of the [TypeError] of [v + "d"] for a [v] that is no
    [str]. *)
Definition add_str_error (v : pyval) : string :=
  match v with
  | PList _ => "can only concatenate list (not " +:+ dquote +:+ "str" +:+ dquote +:+ ") to list"
  | _ => "unsupported operand type(s) for +: '" +:+ type_name v +:+ "' and 'str'"
  end.

(** [v + suffix] for a str [suffix]. *)
Definition py_add_str (v : pyval) (suffix : string) : pyexn + string :=
  match v with
  | PStr s => inr (s +:+ suffix)
  | _ => inl (TypeError (add_str_error v))
  end.

Module AnonymousDataLogger.

(** What the handler does to the outside world: lines on stdout, a call
    of [uuid.uuid4], of [Metrics.send_metrics] and of [cfn.send] (with
    the event as it is at the time of the call, the response status, the
    response data and the physical resource id, if one is passed). *)
Inductive effect : Type :=
| Log (line : string)
| Uuid4
| SendMetrics (config : dict)
| CfnSend (event : dict) (responseStatus : string) (responseData : dict)
    (physicalResourceId : option pyval).

(** The store of an invocation: the event, which the handler changes in
    place through [config], and the calls made so far. *)
Record state : Type := {
  event : dict;
  trace : list effect
}.

(** The outside world: the UUID that [uuid4] draws, whether
    [send_metrics] raises, and whether the [i]-th call of [cfn.send]
    raises (the message of the exception, if so). *)
Record world : Type := {
  uuid4 : string;
  send_metrics_raises : option string;
  cfn_send_raises : nat → option string
}.

Definition is_send (e : effect) : bool :=
  match e with CfnSend _ _ _ _ => true | _ => false end.

(** The responses sent to CloudFormation, in order. *)
Definition sends (t : list effect) : list effect := filter (λ e, is_send e = true) t.

Section Handler.

(** [py_repr] is the runtime's printing of values other than [str];
    [log_stream_name] is [context.log_stream_name]. *)
Context (py_repr : pyval → string) (env : world) (log_stream_name : pyval).

Definition emit (e : effect) : M state unit :=
  λ s, (Val tt, {| event := event s; trace := trace s ++ [e] |}).

Definition print (line : string) : M state unit := emit (Log line).

Definition get_event : M state dict := λ s, (Val (event s), s).

Definition set_event (ev : dict) : M state unit :=
  λ s, (Val tt, {| event := ev; trace := trace s |}).

(** [config], the object that [event['ResourceProperties']] is. *)
Definition get_config : M state dict :=
  ev ← get_event;
  match ev !! "ResourceProperties" with
  | Some (PDict config) => mret config
  | Some v => raise (AttributeError ("'" +:+ type_name v +:+ "' object has no attribute 'pop'"))
  | None => raise (KeyError "ResourceProperties")
  end.

(** A change of [config] is a change of the event. *)
Definition set_config (config : dict) : M state unit :=
  ev ← get_event; set_event (<["ResourceProperties" := PDict config]> ev).

(** [config.pop(key, None)] *)
Definition config_pop (key : string) : M state unit :=
  config ← get_config; set_config (delete key config).

(** [config[key] = value] *)
Definition config_setitem (key : string) (value : pyval) : M state unit :=
  config ← get_config; set_config (<[key := value]> config).

Definition external (failure : option string) : M state unit :=
  match failure with
  | Some msg => raise (ExternalError msg)
  | None => mret tt
  end.

(** [cfn.send(event, context, responseStatus, responseData,
    physicalResourceId)] *)
Definition cfn_send (responseStatus : string) (responseData : dict)
    (physicalResourceId : option pyval) : M state unit :=
  λ s, (emit (CfnSend (event s) responseStatus responseData physicalResourceId) ;;
        external (cfn_send_raises env (length (sends (trace s))))) s.

(** [Metrics.send_metrics(config)] *)
Definition send_metrics : M state unit :=
  config ← get_config;
  emit (SendMetrics config) ;;
  external (send_metrics_raises env).

(** [str(uuid.uuid4())] *)
Definition new_uuid : M state string :=
  emit Uuid4 ;; mret (uuid4 env).

(** Lines 46-68: the branch on the request type and the resource. *)
Definition dispatch (request resource : pyval) : M state unit :=
  if py_eq_str request "Create" then
    '(responseData, id) ←
      (if py_eq_str resource "UUID" then
         uuid ← new_uuid;
         mret ({[ "UUID" := PStr uuid ]}, Some (PStr uuid))
       else if py_eq_str resource "AnonymousMetric" then
         send_metrics ;;
         mret (∅, Some (PStr "Metrics Sent"))
       else
         print ("Create failed, " +:+ py_str py_repr resource
                +:+ " not defined in the Custom Resource") ;;
         cfn_send "FAILED" ∅ (Some log_stream_name) ;;
         mret (∅, None));
    match id with
    | Some id => cfn_send "SUCCESS" responseData (Some id)
    | None => raise (UnboundLocalError "id")
    end
  else if py_eq_str request "Delete" then
    print ("RESPONSE:: " +:+ py_str py_repr resource
           +:+ " : delete not required, sending success response") ;;
    cfn_send "SUCCESS" ∅ None
  else
    print ("RESPONSE:: " +:+ py_str py_repr request +:+ " Not supported").

(** Lines 70-73: the [except Exception as e] clause. *)
Definition report (e : pyexn) : M state unit :=
  print ("Exception: " +:+ str_exn py_repr e) ;;
  cfn_send "FAILED" ∅ (Some log_stream_name) ;;
  print (str_exn py_repr e).

(** [handler(event, context)]; the event is the one of the store. *)
Definition handler : M state unit :=
  ev ← get_event;
  print ("We got this event:" +:+ newline +:+ " " +:+ py_str py_repr (PDict ev)) ;;
  try_Exception
    (ev ← get_event;
     request ← lift (dict_getitem ev "RequestType");
     properties ← lift (dict_getitem ev "ResourceProperties");
     resource ← lift (py_getitem properties "Resource");
     config_pop "ServiceToken" ;;
     config_pop "Resource" ;;
     ev' ← get_event;
     request_type ← lift (dict_getitem ev' "RequestType");
     template ← lift (py_add_str request_type "d");
     config_setitem "CFTemplate" (PStr template) ;;
     print ("Request::" +:+ py_str py_repr request +:+ " Resource:: "
            +:+ py_str py_repr resource) ;;
     dispatch request resource)
    report.

End Handler.

(** *** Vocabulary for the statements about the handler *)

(** A fresh invocation on an event. *)
Definition invocation (ev : dict) : state := {| event := ev; trace := [] |}.

Definition status_of (e : effect) : option string :=
  match e with
  | CfnSend _ st _ _ => Some st
  | _ => None
  end.

(** The statuses of the responses sent to CloudFormation, in order. *)
Definition statuses (t : list effect) : list string := omap status_of t.

(** The configurations sent to the metrics API, in order. *)
Definition metrics (t : list effect) : list dict :=
  omap (λ e, match e with SendMetrics c => Some c | _ => None end) t.

(** What the handler has made of the resource properties by the time it
    branches on the request. *)
Definition scrubbed (template : string) (properties : dict) : dict :=
  <["CFTemplate" := PStr template]> (delete "Resource" (delete "ServiceToken" properties)).

(** The event as the handler has changed it by then. *)
Definition scrubbed_event (template : string) (properties ev : dict) : dict :=
  <["ResourceProperties" := PDict (scrubbed template properties)]> ev.

End AnonymousDataLogger.

Module LoggerScenarios.

Import AnonymousDataLogger.

Definition properties (resource : string) : dict :=
  <["ServiceToken" := PStr "arn:aws:lambda:us-east-1:111122223333:function:logger"]>
    (<["Resource" := PStr resource]>
       (<["SolutionId" := PStr "SO0163"]> {[ "Version" := PStr "v2.0.0" ]})).

Definition request (request_type resource : string) : dict :=
  <["RequestType" := PStr request_type]>
    {[ "ResourceProperties" := PDict (properties resource) ]}.

(** Nothing raises. *)
Definition calm : world :=
  {| uuid4 := "0b2f4c9e-7a10-4c55-9d3e-6f1a2b3c4d5e";
     send_metrics_raises := None;
     cfn_send_raises := λ _, None |}.

(** The metrics API cannot be reached. *)
Definition unreachable : world :=
  {| uuid4 := "0b2f4c9e-7a10-4c55-9d3e-6f1a2b3c4d5e";
     send_metrics_raises := Some "connection timed out";
     cfn_send_raises := λ _, None |}.

(** [context.log_stream_name] *)
Definition log_stream : pyval := PStr "2026/11/04/[$LATEST]abcdef".

Definition run (env : world) (ev : dict) : result unit * state :=
  handler Scenarios.plain_repr env log_stream (invocation ev).

End LoggerScenarios.

(** * Properties of the poll adapter *)

Module PollAdapter.
Import CheckContentModerationStatus.

Lemma Status_of_output h : Status_of (output_dict h) = Some (status h).
Proof. unfold Status_of, output_dict. by simplify_map_eq. Qed.

Lemma MetaData_of_output h k : MetaData_of (output_dict h) k = metadata h !! k.
Proof. unfold MetaData_of, output_dict. by simplify_map_eq. Qed.

Lemma py_eq_str_true v s : py_eq_str v s = true ↔ v = PStr s.
Proof.
  destruct v; simpl; try (split; [discriminate | congruence]).
  rewrite bool_decide_eq_true. split; congruence.
Qed.

Lemma py_eq_str_excl v s1 s2 :
  py_eq_str v s1 = true → py_eq_str v s2 = true → s1 = s2.
Proof. intros H1%py_eq_str_true H2%py_eq_str_true. congruence. Qed.

Lemma queries_snoc t c :
  queries (t ++ [c]) = queries t ++ (if is_query c then [c] else []).
Proof.
  unfold queries. rewrite filter_app. f_equal.
  destruct c; reflexivity.
Qed.

Lemma writes_snoc t c :
  writes (t ++ [c]) = writes t ++ (if is_write c then [c] else []).
Proof.
  unfold writes. rewrite filter_app. f_equal.
  destruct c; reflexivity.
Qed.

Section Run.

Context (py_repr : pyval → string) (operator_name : string) (env : world).

Abbreviation poll := (poll py_repr operator_name env).
Abbreviation lambda_handler := (lambda_handler py_repr operator_name env).
Abbreviation page_calls := (page_calls py_repr operator_name).

Ltac run :=
  cbv beta iota zeta delta
    [lift mbind M_bind mret M_ret bind ret raise raise_mas try_KeyError
     get_content_moderation store_asset_metadata update_workflow_status
     add_workflow_metadata return_output_object print emit answer out_of_fuel
     dict_getitem py_getitem] in *;
  cbn [output_object trace fst snd] in *.

(** Comparisons of two string literals are evaluated. *)
Ltac literals :=
  repeat match goal with
  | |- context [py_eq_str (PStr ?a) ?b] =>
    let v := eval vm_compute in (py_eq_str (PStr a) b) in
    change (py_eq_str (PStr a) b) with v
  end; run.

Ltac unroll := cbn [CheckContentModerationStatus.poll] in *; run.

(** One iteration that does not go round again gives the result of the
    whole loop, whatever the remaining budget. *)
Lemma poll_one_stops fuel j a w t ip s :
  (poll 1 j a w t ip s).1 ≠ OutOfFuel →
  poll (S fuel) j a w t ip s = poll 1 j a w t ip s.
Proof.
  intros H. unroll. repeat case_match; simplify_eq; try done.
Qed.


(** An iteration goes round again exactly on a SUCCEEDED page with a
    NextToken whose write was answered with Success. *)
Lemma poll_one_continues j a w t ip s :
  more_pages (rek_reply env (length (queries (trace s)))) = true →
  upload_ok (store_reply env (length (writes (trace s)))) = true →
  ∃ d tok,
    rek_reply env (length (queries (trace s))) = Answer d ∧
    ∀ fuel, poll (S fuel) j a w t ip s =
            poll fuel j a w tok true (after s (page_calls j a w t d)).
Proof.
  unfold more_pages, upload_ok, job_status, next_token. intros Hp Hu.
  destruct (rek_reply env _) as [d|] eqn:Hr; [|done].
  destruct (d !! "JobStatus") as [js|] eqn:Hjs; [|done].
  destruct (d !! "NextToken") as [tok|] eqn:Htok; [|done].
  apply py_eq_str_true in Hp as ->.
  exists d, tok. split; [done|]. intros fuel.
  unroll. rewrite Hr. run. rewrite Hjs. run. literals. rewrite Htok. run.
  rewrite writes_snoc. cbn [is_write]. rewrite app_nil_r.
  destruct (store_reply env _) as [u|]; [|done]. run.
  destruct (u !! "Status") as [v|]; [|done]. run. rewrite Hu.
  unfold after, CheckContentModerationStatus.page_calls. cbn [output_object trace].
  by rewrite <- !app_assoc.
Qed.

(** Case analysis on everything an iteration looks at. *)
Ltac cases :=
  repeat (first [ progress (rewrite writes_snoc in *; cbn [is_write] in *;
                            rewrite ?app_nil_r in * )
                | case_match ];
          simplify_eq; run; try done; try congruence;
          try match goal with
              | H1 : py_eq_str ?v ?a = true, H2 : py_eq_str ?v ?b = true |- _ =>
                by pose proof (py_eq_str_excl _ _ _ H1 H2)
              end).

Ltac by_eqs :=
  repeat (match goal with
          | E : ?x = _ |- context [match ?x with _ => _ end] => rewrite E
          | E : ?x = _ |- context [if ?x then _ else _] => rewrite E
          | E : ?x = _ |- context [negb ?x] => rewrite E
          end; cbn beta iota; cbn [negb]).

Lemma poll_one_out_of_fuel j a w t ip s :
  (poll 1 j a w t ip s).1 = OutOfFuel →
  more_pages (rek_reply env (length (queries (trace s)))) = true ∧
  upload_ok (store_reply env (length (writes (trace s)))) = true.
Proof.
  intros H. unroll. cases.
  all: unfold more_pages, upload_ok, job_status, next_token; by_eqs. all: done.
Qed.

Lemma failed_with_Error_intro h :
  status h = PStr "Error" →
  failed_with_Error (Raise (MasExecutionError (output_dict h))).
Proof. intros H. eexists. split; [done|]. by rewrite Status_of_output, H. Qed.

Lemma returned_intro h st :
  status h = PStr st → returned (Val (output_dict h)) st.
Proof. intros H. eexists. split; [done|]. by rewrite Status_of_output, H. Qed.

(** What one iteration does: it asks the service once, and makes at most
    one write; if it stops after a write that was not answered with
    Success, it stops with the Error failure. *)
Lemma poll_one_effects j a w t ip s r s' :
  poll 1 j a w t ip s = (r, s') →
  (∃ rest, trace s' = trace s ++ GetContentModeration j 1000 t :: rest) ∧
  length (queries (trace s')) = S (length (queries (trace s))) ∧
  (writes (trace s') = writes (trace s) ∨
   ∃ c, writes (trace s') = writes (trace s) ++ [c] ∧
        (upload_bad (store_reply env (length (writes (trace s)))) = true →
         failed_with_Error r)).
Proof.
  intros H. unroll. cases.
  all: split; [eexists; rewrite <- ?app_assoc; reflexivity|].
  all: split; [rewrite ?queries_snoc; cbn [is_query]; rewrite ?app_nil_r, ?length_app;
               cbn [length]; lia|].
  all: rewrite ?writes_snoc; cbn [is_write]; rewrite ?app_nil_r.
  all: first [ left; reflexivity | right; eexists; split; [reflexivity|] ].
  all: unfold upload_bad, upload_ok; by_eqs; try done.
  all: intros _; by apply failed_with_Error_intro.
Qed.


Lemma queries_page j a w t d s :
  length (queries (trace (after s (page_calls j a w t d)))) =
  S (length (queries (trace s))).
Proof.
  unfold after, CheckContentModerationStatus.page_calls. cbn [trace].
  change (trace s ++ [?x; ?y; ?z]) with (trace s ++ [x] ++ [y] ++ [z]).
  rewrite !app_assoc, !queries_snoc. cbn [is_query].
  rewrite !app_nil_r, length_app. cbn [length]. lia.
Qed.

Lemma writes_page j a w t d s :
  writes (trace (after s (page_calls j a w t d))) =
  writes (trace s) ++
  [StoreAssetMetadata a (PStr operator_name) w (PDict d) (Some true) (Some false)].
Proof.
  unfold after, CheckContentModerationStatus.page_calls. cbn [trace].
  change (trace s ++ [?x; ?y; ?z]) with (trace s ++ [x] ++ [y] ++ [z]).
  rewrite !app_assoc, !writes_snoc. cbn [is_write].
  by rewrite !app_nil_r.
Qed.

(** An iteration either goes round again after storing a page, or it
    ends the loop with the result of that one iteration. *)
Lemma poll_cases j a w t ip s :
  (∃ d tok,
     more_pages (rek_reply env (length (queries (trace s)))) = true ∧
     upload_ok (store_reply env (length (writes (trace s)))) = true ∧
     ∀ fuel, poll (S fuel) j a w t ip s =
             poll fuel j a w tok true (after s (page_calls j a w t d))) ∨
  ((poll 1 j a w t ip s).1 ≠ OutOfFuel ∧
   ∀ fuel, poll (S fuel) j a w t ip s = poll 1 j a w t ip s).
Proof.
  destruct ((poll 1 j a w t ip s).1) eqn:E.
  1,2: right; split; [done|]; intros fuel; apply poll_one_stops; by rewrite E.
  left. apply poll_one_out_of_fuel in E as [Hp Hu].
  destruct (poll_one_continues j a w t ip s Hp Hu) as (d & tok & _ & Heq).
  by exists d, tok.
Qed.

Lemma upload_bad_not_ok r : upload_bad r = true → upload_ok r = false.
Proof. destruct r; simpl; [|done]. by intros ?%negb_true_iff. Qed.

(** The loop only ever adds calls to the trace. *)
Lemma poll_trace_extends fuel : ∀ j a w t ip s,
  ∃ rest, trace (poll fuel j a w t ip s).2 = trace s ++ rest.
Proof.
  induction fuel as [|fuel IH]; intros j a w t ip s.
  - exists []. by rewrite app_nil_r.
  - destruct (poll_cases j a w t ip s) as [(d & tok & _ & _ & Heq)|[_ Heq]];
      rewrite Heq.
    + destruct (IH j a w tok true (after s (page_calls j a w t d))) as [rest ->].
      cbn [after trace]. rewrite <- app_assoc. by eexists.
    + destruct (poll 1 j a w t ip s) as [r s'] eqn:E.
      apply poll_one_effects in E as [[rest E] _]. cbn [snd]. rewrite E. by eexists.
Qed.

(** With at least one unit of fuel, the first thing the loop does is ask
    the service for the job's status. *)
Lemma poll_asks_first fuel j a w t ip s :
  ∃ rest, trace (poll (S fuel) j a w t ip s).2 =
          trace s ++ GetContentModeration j 1000 t :: rest.
Proof.
  destruct (poll_cases j a w t ip s) as [(d & tok & _ & _ & Heq)|[_ Heq]];
    rewrite Heq.
  - destruct (poll_trace_extends fuel j a w tok true (after s (page_calls j a w t d)))
      as [rest ->].
    cbn [after trace CheckContentModerationStatus.page_calls]. rewrite <- app_assoc. by eexists.
  - destruct (poll 1 j a w t ip s) as [r s'] eqn:E.
    apply poll_one_effects in E as [[rest E] _]. cbn [snd]. rewrite E. by eexists.
Qed.

(** A write of the loop that is not answered with Success ends the
    invocation with the Error failure. *)
Lemma poll_bad_write fuel : ∀ j a w t ip s r s' i,
  poll fuel j a w t ip s = (r, s') →
  length (writes (trace s)) ≤ i < length (writes (trace s')) →
  upload_bad (store_reply env i) = true →
  failed_with_Error r.
Proof.
  induction fuel as [|fuel IH]; intros j a w t ip s r s' i Hrun Hi Hbad.
  - unroll. simplify_eq. lia.
  - destruct (poll_cases j a w t ip s) as [(d & tok & _ & Hok & Heq)|[_ Heq]];
      rewrite Heq in Hrun.
    + eapply IH; [exact Hrun| |exact Hbad].
      rewrite writes_page, length_app. cbn [length].
      destruct (decide (i = length (writes (trace s)))) as [->|]; [|lia].
      apply upload_bad_not_ok in Hbad. congruence.
    + apply poll_one_effects in Hrun as (_ & _ & [Hw|(c & Hw & Hc)]).
      * rewrite Hw in Hi. lia.
      * rewrite Hw, length_app in Hi. cbn [length] in Hi.
        assert (i = length (writes (trace s))) as -> by lia. auto.
Qed.


(** [k] pages in a row that are stored and followed by another: the loop
    makes [k] rounds, one status query and one non-final write each. *)
Lemma poll_pages k : ∀ j a w t ip s,
  (∀ i, i < k →
     more_pages (rek_reply env (length (queries (trace s)) + i)) = true ∧
     upload_ok (store_reply env (length (writes (trace s)) + i)) = true) →
  ∃ t' s',
    (∀ fuel, poll (k + fuel) j a w t ip s =
             poll fuel j a w t' (ip || bool_decide (0 < k)) s') ∧
    output_object s' = output_object s ∧
    length (queries (trace s')) = length (queries (trace s)) + k ∧
    ∃ ws, writes (trace s') = writes (trace s) ++ ws ∧ length ws = k ∧
          Forall (λ c, marked_non_final c = true) ws.
Proof.
  induction k as [|k IH]; intros j a w t ip s Hpages.
  - exists t, s. rewrite orb_false_r, Nat.add_0_r.
    repeat split; [done..|]. exists []. by rewrite app_nil_r.
  - destruct (Hpages 0) as [Hp Hu]; [lia|]. rewrite Nat.add_0_r in Hp, Hu.
    destruct (poll_one_continues j a w t ip s Hp Hu) as (d & tok & _ & Heq).
    destruct (IH j a w tok true (after s (page_calls j a w t d)))
      as (t' & s' & Hrun & Hout & Hq & ws & Hw & Hlen & Hnf).
    { intros i Hi. rewrite queries_page, writes_page, length_app. cbn [length].
      destruct (Hpages (S i)) as [Hp' Hu']; [lia|].
      split; [rewrite <- Hp'|rewrite <- Hu']; do 2 f_equal; lia. }
    exists t', s'. rewrite orb_true_r. repeat split.
    + intros fuel. cbn [Nat.add]. by rewrite Heq, Hrun.
    + done.
    + rewrite Hq, queries_page. lia.
    + eexists (_ :: ws). rewrite Hw, writes_page, <- app_assoc.
      split; [done|]. split; [cbn [length]; lia|]. by constructor.
Qed.

(** The keys the handler needs, read off the event. *)
Lemma handler_enters_loop fuel event s st a j w :
  event !! "Status" = Some st →
  st ≠ PStr "Complete" →
  carries event "AssetId" a →
  carries event "ContentModerationJobId" j →
  carries event "WorkflowExecutionId" w →
  lambda_handler fuel event s = poll fuel j a w (PStr "") false s.
Proof.
  intros Hst Hne (meta & Hm & Ha) (meta' & Hm' & Hj) (meta'' & Hm'' & Hw).
  simplify_eq.
  assert (py_eq_str st "Complete" = false) as Hc.
  { apply not_true_is_false. by intros ?%py_eq_str_true. }
  unfold CheckContentModerationStatus.lambda_handler. run.
  rewrite Hst. run. rewrite Hm. cbn [py_getitem]. run. rewrite Ha. run.
  rewrite Hc, Hj. run. by rewrite Hw.
Qed.



Lemma poll_unknown fuel j a w t ip s r s' js :
  job_status (rek_reply env (length (queries (trace s)))) = Some js →
  py_eq_str js "IN_PROGRESS" = false →
  py_eq_str js "FAILED" = false →
  py_eq_str js "SUCCEEDED" = false →
  poll (S fuel) j a w t ip s = (r, s') →
  (∃ o, r = Raise (MasExecutionError o) ∧ Status_of o = Some (PStr "Error") ∧
        MetaData_of o "ContentModerationError" =
          Some (PStr "Unable to determine status")) ∧
  writes (trace s') = writes (trace s).
Proof.
  unfold job_status. intros Hjs H1 H2 H3 Hrun. unroll. cases.
  split.
  - eexists. split; [done|]. rewrite Status_of_output, MetaData_of_output.
    split; [done|]. cbn [add_metadata foldl metadata fst snd].
    apply lookup_insert_eq.
  - cbn [trace]. rewrite ?writes_snoc. cbn [is_write]. by rewrite ?app_nil_r.
Qed.

Lemma poll_last_page fuel j a w t ip s r s' :
  last_page (rek_reply env (length (queries (trace s)))) = true →
  poll (S fuel) j a w t ip s = (r, s') →
  (∃ d, writes (trace s') = writes (trace s) ++
          [StoreAssetMetadata a (PStr operator_name) w (PDict d)
             (if ip then Some true else None) (if ip then Some true else None)]) ∧
  (upload_ok (store_reply env (length (writes (trace s)))) = true →
   returned r "Complete").
Proof.
  unfold last_page, job_status, next_token. intros Hl Hrun. unroll. cases.
  all: rewrite ?writes_snoc; cbn [is_write]; rewrite ?app_nil_r.
  all: split; [by eexists|].
  all: unfold upload_ok; by_eqs; try done; try (intros ?; congruence).
  all: intros _; by apply returned_intro.
Qed.


(** Either the handler enters the loop, or it ends before any call, with
    a result that does not depend on the budget. *)
Lemma handler_cases event s :
  (∃ j a w, ∀ fuel, lambda_handler fuel event s = poll fuel j a w (PStr "") false s) ∨
  (∃ r s', (∀ fuel, lambda_handler fuel event s = (r, s')) ∧
           r ≠ OutOfFuel ∧ trace s' = trace s).
Proof.
  unfold CheckContentModerationStatus.lambda_handler. run. cases.
  all: first [ left; eexists _, _, _; intros; reflexivity
             | right; eexists _, _; split; [intros; reflexivity|]; done ].
Qed.

Lemma handler_through_pages k event h st a j w :
  event !! "Status" = Some st →
  st ≠ PStr "Complete" →
  carries event "AssetId" a →
  carries event "ContentModerationJobId" j →
  carries event "WorkflowExecutionId" w →
  (∀ i, i < k → more_pages (rek_reply env i) = true ∧
                upload_ok (store_reply env i) = true) →
  ∃ t s1,
    (∀ fuel, lambda_handler (k + fuel) event (fresh h) =
             poll fuel j a w t (bool_decide (0 < k)) s1) ∧
    output_object s1 = h ∧
    length (queries (trace s1)) = k ∧
    length (writes (trace s1)) = k ∧
    Forall (λ c, marked_non_final c = true) (writes (trace s1)).
Proof.
  intros Hst Hne Ha Hj Hw Hpages.
  destruct (poll_pages k j a w (PStr "") false (fresh h))
    as (t & s1 & Hrun & Hout & Hq & ws & Hws & Hlen & Hnf); [done|].
  exists t, s1. cbn in Hws. subst ws. repeat split; try done.
  intros fuel. rewrite <- Hrun. by eapply handler_enters_loop.
Qed.


(** A loop that meets, after [k] rounds at most, a response that is not
    a page with more to come, ends within [k + 1] rounds. *)
Lemma poll_ends k : ∀ fuel j a w t ip s,
  more_pages (rek_reply env (length (queries (trace s)) + k)) = false →
  k < fuel →
  (poll (S k) j a w t ip s).1 ≠ OutOfFuel ∧
  poll fuel j a w t ip s = poll (S k) j a w t ip s ∧
  length (queries (trace (poll (S k) j a w t ip s).2)) ≤ length (queries (trace s)) + S k.
Proof.
  induction k as [|k IH]; intros [|fuel] j a w t ip s Hend Hfuel; try lia.
  all: destruct (poll_cases j a w t ip s) as [(d & tok & Hp & _ & Heq)|[Hstop Heq]].
  - rewrite Nat.add_0_r in Hend. congruence.
  - rewrite (Heq fuel). split; [done|]. split; [done|].
    destruct (poll 1 j a w t ip s) as [r s'] eqn:E.
    apply poll_one_effects in E as (_ & Hq & _). cbn [fst snd]. lia.
  - rewrite (Heq fuel), (Heq (S k)).
    destruct (IH fuel j a w tok true (after s (page_calls j a w t d)))
      as (Hne & Hsame & Hlen); [|lia|].
    { rewrite queries_page. rewrite <- Hend. do 2 f_equal. lia. }
    rewrite queries_page in Hlen. repeat split; [done..|lia].
  - rewrite (Heq fuel), (Heq (S k)). split; [done|]. split; [done|].
    destruct (poll 1 j a w t ip s) as [r s'] eqn:E.
    apply poll_one_effects in E as (_ & Hq & _). cbn [fst snd]. lia.
Qed.

(** C1, as the code has it.  A SUCCEEDED job whose responses form [N]
    pages, the first [N - 1] with a NextToken and the last without, and
    whose first [N - 1] writes are answered with Status "Success": the
    adapter makes exactly [N] metadata writes, the first [N - 1] marked
    non-final ([paginate=True, end=False]) and the last marked final
    ([paginate=True, end=True]) when [N > 1], unmarked (neither keyword
    passed) when [N = 1]; it returns Status "Complete" when the last
    write succeeds too. *)
Theorem succeeded_pages_written_and_complete N fuel event h st a j w :
  event !! "Status" = Some st →
  st ≠ PStr "Complete" →
  carries event "AssetId" a →
  carries event "ContentModerationJobId" j →
  carries event "WorkflowExecutionId" w →
  0 < N →
  (∀ i, i < N - 1 → more_pages (rek_reply env i) = true) →
  last_page (rek_reply env (N - 1)) = true →
  (∀ i, i < N - 1 → upload_ok (store_reply env i) = true) →
  N ≤ fuel →
  let run := lambda_handler fuel event (fresh h) in
  length (writes (trace run.2)) = N ∧
  (∃ ws c, writes (trace run.2) = ws ++ [c] ∧
           length ws = N - 1 ∧
           Forall (λ c, marked_non_final c = true) ws ∧
           (if decide (N = 1) then unmarked c = true else marked_final c = true)) ∧
  (upload_ok (store_reply env (N - 1)) = true → returned run.1 "Complete").
Proof.
  intros Hst Hne Ha Hj Hw HN Hpages Hlast Hups Hfuel run. subst run.
  destruct N as [|k]; [lia|]. replace (S k - 1) with k in * by lia.
  destruct (handler_through_pages k event h st a j w)
    as (t & s1 & Hrun & _ & Hq & Hws & Hnf); [done..|by auto|].
  replace fuel with (k + S (fuel - S k)) by lia. rewrite Hrun.
  destruct (poll _ _ _ _ _ _ s1) as [r s'] eqn:E. cbn [fst snd].
  apply poll_last_page in E as [(d & Hc) Hok]; [|by rewrite Hq].
  rewrite Hws in Hok. rewrite Hc, length_app, Hws. cbn [length].
  split; [lia|]. split; [|done]. eexists _, _. split; [done|].
  split; [done|]. split; [done|].
  destruct k as [|k]; [done|]. by rewrite decide_False by lia.
Qed.

(** C2, as the code has it.  An event whose Status is "Complete" and
    whose MetaData carries AssetId: the adapter returns at once with
    Status "Complete", with no status query and no metadata write. *)
Theorem already_complete_returns_at_once fuel event h a :
  event !! "Status" = Some (PStr "Complete") →
  carries event "AssetId" a →
  let run := lambda_handler fuel event (fresh h) in
  returned run.1 "Complete" ∧ trace run.2 = [].
Proof.
  intros Hst (meta & Hm & Ha) run. subst run.
  unfold CheckContentModerationStatus.lambda_handler. run.
  rewrite Hst. run. rewrite Hm. run. rewrite Ha. run. literals.
  split; [by apply returned_intro|done].
Qed.

(** C3, as the code has it.  An event without Status or without
    MetaData.AssetId, and an event whose Status is not "Complete" without
    MetaData.ContentModerationJobId or MetaData.WorkflowExecutionId: the
    adapter raises the Error failure, with no status query and no metadata
    write. *)
Theorem missing_key_is_error_without_calls fuel event h :
  event !! "Status" = None ∨
  lacks event "AssetId" ∨
  (event !! "Status" ≠ Some (PStr "Complete") ∧
   (lacks event "ContentModerationJobId" ∨ lacks event "WorkflowExecutionId")) →
  let run := lambda_handler fuel event (fresh h) in
  failed_with_Error run.1 ∧ trace run.2 = [].
Proof.
  intros Hmiss run. subst run.
  unfold CheckContentModerationStatus.lambda_handler. run.
  unfold lacks in Hmiss.
  destruct (event !! "Status") as [st|] eqn:Hst; run;
    [|split; [by apply failed_with_Error_intro|done]].
  destruct (py_eq_str st "Complete") eqn:Hc.
  { apply py_eq_str_true in Hc as ->.
    destruct Hmiss as [?|[[Hm|(meta & Hm & Ha)]|[? _]]]; try done.
    all: rewrite Hm; run; rewrite ?Ha; run.
    all: split; [by apply failed_with_Error_intro|done]. }
  destruct (event !! "MetaData") as [meta|] eqn:Hm; run;
    [|split; [by apply failed_with_Error_intro|done]].
  destruct Hmiss as [?|[[?|(meta' & ? & Ha)]|[_ [[?|(meta' & ? & Hj)]|[?|(meta' & ? & Hw)]]]]];
    try done; simplify_eq; run.
  - rewrite Ha. run. split; [by apply failed_with_Error_intro|done].
  - destruct (meta' !! "AssetId"); run; rewrite ?Hc, ?Hj; run.
    all: split; [by apply failed_with_Error_intro|done].
  - destruct (meta' !! "AssetId"); run; rewrite ?Hc; run;
      [destruct (meta' !! "ContentModerationJobId"); run; rewrite ?Hw; run|].
    all: split; [by apply failed_with_Error_intro|done].
Qed.




(** C6.  Whenever a metadata write of the invocation is answered by a
    mapping with no Status, or with a Status other than "Success", the
    adapter raises the Error failure; it does not return. *)
Theorem bad_write_raises_error fuel event h i :
  let run := lambda_handler fuel event (fresh h) in
  i < length (writes (trace run.2)) →
  upload_bad (store_reply env i) = true →
  failed_with_Error run.1 ∧ ∀ st, ¬ returned run.1 st.
Proof.
  intros run Hi Hbad. subst run.
  assert (failed_with_Error (lambda_handler fuel event (fresh h)).1) as Hfail.
  { destruct (handler_cases event (fresh h)) as [(j & a & w & Heq)|(r & s' & Heq & _ & Ht)];
      rewrite Heq in Hi |- *.
    - destruct (poll _ _ _ _ _ _ _) as [r s'] eqn:E.
      eapply poll_bad_write; [exact E| |exact Hbad]. cbn in *. lia.
    - cbn in Hi. rewrite Ht in Hi. cbn in Hi. lia. }
  split; [done|]. intros st (o & Ho & _). destruct Hfail as (o' & Ho' & _). congruence.
Qed.

(** C7.  When the service reports a job status other than IN_PROGRESS,
    FAILED and SUCCEEDED, after [k] pages that were stored, the adapter
    raises the Error failure with the message "Unable to determine
    status" and makes no metadata write for that response. *)
Theorem unknown_status_raises_error k fuel event h st a j w js :
  event !! "Status" = Some st →
  st ≠ PStr "Complete" →
  carries event "AssetId" a →
  carries event "ContentModerationJobId" j →
  carries event "WorkflowExecutionId" w →
  (∀ i, i < k → more_pages (rek_reply env i) = true ∧
                upload_ok (store_reply env i) = true) →
  job_status (rek_reply env k) = Some js →
  js ≠ PStr "IN_PROGRESS" → js ≠ PStr "FAILED" → js ≠ PStr "SUCCEEDED" →
  k < fuel →
  let run := lambda_handler fuel event (fresh h) in
  (∃ o, run.1 = Raise (MasExecutionError o) ∧
        Status_of o = Some (PStr "Error") ∧
        MetaData_of o "ContentModerationError" =
          Some (PStr "Unable to determine status")) ∧
  length (writes (trace run.2)) = k.
Proof.
  intros Hst Hne Ha Hj Hw Hpages Hjs H1 H2 H3 Hfuel run. subst run.
  destruct (handler_through_pages k event h st a j w)
    as (t & s1 & Hrun & _ & Hq & Hws & Hnf); [done..|].
  replace fuel with (k + S (fuel - S k)) by lia. rewrite Hrun.
  destruct (poll _ _ _ _ _ _ s1) as [r s'] eqn:E. cbn [fst snd].
  eapply poll_unknown in E as [Hret Hsame]; [|by rewrite Hq|..].
  - by rewrite Hsame.
  - apply not_true_is_false. by intros ?%py_eq_str_true.
  - apply not_true_is_false. by intros ?%py_eq_str_true.
  - apply not_true_is_false. by intros ?%py_eq_str_true.
Qed.

(** C9.  If the [k + 1]-th response of the service is anything but a
    SUCCEEDED page with a NextToken (so at most [k] such pages come before
    it), the invocation ends, by returning or raising, within [k + 1]
    rounds of the loop: [k + 1] units of budget are enough, more change
    nothing, and at most [k + 1] status queries are made. *)
Theorem poll_terminates_within_pages k fuel event h :
  more_pages (rek_reply env k) = false →
  k < fuel →
  let run := lambda_handler (S k) event (fresh h) in
  run.1 ≠ OutOfFuel ∧
  lambda_handler fuel event (fresh h) = run ∧
  length (queries (trace run.2)) ≤ S k.
Proof.
  intros Hend Hfuel run. subst run.
  destruct (handler_cases event (fresh h)) as [(j & a & w & Heq)|(r & s' & Heq & Hne & Ht)];
    rewrite !Heq.
  - by apply (poll_ends k fuel j a w (PStr "") false (fresh h)).
  - cbn [fst snd]. rewrite Ht. cbn. split; [done|]. split; [done|lia].
Qed.

(** C10, as the code has it.  An event whose Status is anything but
    "Complete" and whose MetaData carries AssetId, ContentModerationJobId
    and WorkflowExecutionId: the adapter does not return at once; the
    first thing it does is ask the service for the status of the job. *)
Theorem not_complete_queries_service fuel event h st a j w :
  event !! "Status" = Some st →
  st ≠ PStr "Complete" →
  carries event "AssetId" a →
  carries event "ContentModerationJobId" j →
  carries event "WorkflowExecutionId" w →
  ∃ rest, trace (lambda_handler (S fuel) event (fresh h)).2 =
          GetContentModeration j 1000 (PStr "") :: rest.
Proof.
  intros Hst Hne Ha Hj Hw.
  rewrite (handler_enters_loop _ _ _ st a j w) by done.
  apply (poll_asks_first fuel j a w (PStr "") false (fresh h)).
Qed.


(** *** More on the loop: what is asked and what is stored *)

(** A round that goes on, with the page and the token it found. *)
Lemma poll_round j a w t ip s :
  more_pages (rek_reply env (length (queries (trace s)))) = true →
  upload_ok (store_reply env (length (writes (trace s)))) = true →
  ∃ d tok,
    rek_reply env (length (queries (trace s))) = Answer d ∧
    d !! "NextToken" = Some tok ∧
    ∀ fuel, poll (S fuel) j a w t ip s =
            poll fuel j a w tok true (after s (page_calls j a w t d)).
Proof.
  unfold more_pages, upload_ok, job_status, next_token. intros Hp Hu.
  destruct (rek_reply env _) as [d|] eqn:Hr; [|done].
  destruct (d !! "JobStatus") as [js|] eqn:Hjs; [|done].
  destruct (d !! "NextToken") as [tok|] eqn:Htok; [|done].
  apply py_eq_str_true in Hp as ->.
  exists d, tok. split; [done|]. split; [done|]. intros fuel.
  unroll. rewrite Hr. run. rewrite Hjs. run. literals. rewrite Htok. run.
  rewrite writes_snoc. cbn [is_write]. rewrite app_nil_r.
  destruct (store_reply env _) as [u|]; [|done]. run.
  destruct (u !! "Status") as [v|]; [|done]. run. rewrite Hu.
  unfold after, CheckContentModerationStatus.page_calls. cbn [output_object trace].
  by rewrite <- !app_assoc.
Qed.

Lemma poll_rounds j a w t ip s :
  (∃ d tok,
     rek_reply env (length (queries (trace s))) = Answer d ∧
     d !! "NextToken" = Some tok ∧
     ∀ fuel, poll (S fuel) j a w t ip s =
             poll fuel j a w tok true (after s (page_calls j a w t d))) ∨
  ((poll 1 j a w t ip s).1 ≠ OutOfFuel ∧
   ∀ fuel, poll (S fuel) j a w t ip s = poll 1 j a w t ip s).
Proof.
  destruct ((poll 1 j a w t ip s).1) eqn:E.
  1,2: right; split; [done|]; intros fuel; apply poll_one_stops; by rewrite E.
  left. apply poll_one_out_of_fuel in E as [Hp Hu].
  by apply poll_round.
Qed.

Lemma queries_page_list j a w t d s :
  queries (trace (after s (page_calls j a w t d))) =
  queries (trace s) ++ [GetContentModeration j 1000 t].
Proof.
  unfold after, CheckContentModerationStatus.page_calls. cbn [trace].
  change (trace s ++ [?x; ?y; ?z]) with (trace s ++ [x] ++ [y] ++ [z]).
  rewrite !app_assoc, !queries_snoc. cbn [is_query].
  by rewrite !app_nil_r.
Qed.

(** The one query of a single iteration. *)
Lemma poll_one_query j a w t ip s r s' :
  poll 1 j a w t ip s = (r, s') →
  queries (trace s') = queries (trace s) ++ [GetContentModeration j 1000 t].
Proof.
  intros H. unroll. cases.
  all: rewrite ?queries_snoc; cbn [is_query]; by rewrite ?app_nil_r.
Qed.

(** The write of a single iteration, if there is one, stores the
    response that iteration received. *)
Lemma poll_one_write j a w t ip s r s' :
  poll 1 j a w t ip s = (r, s') →
  writes (trace s') = writes (trace s) ∨
  ∃ d p e, rek_reply env (length (queries (trace s))) = Answer d ∧
           writes (trace s') =
           writes (trace s) ++ [StoreAssetMetadata a (PStr operator_name) w (PDict d) p e].
Proof.
  intros H. unroll. cases.
  all: rewrite ?writes_snoc; cbn [is_write]; rewrite ?app_nil_r.
  all: first [ by left | right; by eexists _, _, _ ].
Qed.

Abbreviation asks := (asks env).

Lemma poll_queries fuel : ∀ j a w t ip s,
  token_for env (length (queries (trace s))) = Some t →
  (∀ i c, queries (trace s) !! i = Some c → asks j i c) →
  ∀ i c, queries (trace (poll fuel j a w t ip s).2) !! i = Some c → asks j i c.
Proof.
  induction fuel as [|fuel IH]; intros j a w t ip s Ht Hinv; [done|].
  destruct (poll_rounds j a w t ip s) as [(d & tok & Hr & Htok & Heq)|[_ Heq]];
    rewrite Heq.
  - apply IH.
    + rewrite queries_page_list, length_app. cbn [length].
      rewrite Nat.add_1_r. cbn [token_for]. unfold next_token. by rewrite Hr.
    + intros i c. rewrite queries_page_list.
      intros [Hi|[Hi Hc]]%lookup_app_Some; [by apply Hinv|].
      apply list_lookup_singleton_Some in Hc as [Hz <-].
      assert (i = length (queries (trace s))) as -> by lia. by exists t.
  - destruct (poll 1 j a w t ip s) as [r s'] eqn:E. cbn [snd].
    rewrite (poll_one_query _ _ _ _ _ _ _ _ E).
    intros i c [Hi|[Hi Hc]]%lookup_app_Some; [by apply Hinv|].
    apply list_lookup_singleton_Some in Hc as [Hz <-].
    assert (i = length (queries (trace s))) as -> by lia. by exists t.
Qed.

(** X1.  Every status query of an invocation asks for the job of the
    event with MaxResults 1000; the first carries the empty token and
    each later one the NextToken of the response before it. *)
Theorem queries_chain_tokens fuel event h i c :
  queries (trace (lambda_handler fuel event (fresh h)).2) !! i = Some c →
  ∃ j t, carries event "ContentModerationJobId" j ∧
         token_for env i = Some t ∧
         c = GetContentModeration j 1000 t.
Proof.
  unfold CheckContentModerationStatus.lambda_handler. run.
  destruct (event !! "Status") as [st|]; run; [|done].
  destruct (event !! "MetaData") as [[]|] eqn:Hm; run; try done.
  destruct (d !! "AssetId") as [a|]; run; [|done].
  destruct (py_eq_str st "Complete"); run; [done|].
  destruct (d !! "ContentModerationJobId") as [j|] eqn:Hj; run; [|done].
  destruct (d !! "WorkflowExecutionId") as [w|]; run; [|done].
  intros Hq. exists j.
  destruct (poll_queries fuel j a w (PStr "") false (fresh h) eq_refl) with (i := i) (c := c)
    as (t & Ht & ->); [done|done|].
  exists t. split; [by exists d|done].
Qed.

Lemma poll_writes fuel : ∀ j a w t ip s,
  length (writes (trace s)) = length (queries (trace s)) →
  let stores i c := ∃ d p e, rek_reply env i = Answer d ∧
                     c = StoreAssetMetadata a (PStr operator_name) w (PDict d) p e in
  (∀ i c, writes (trace s) !! i = Some c → stores i c) →
  ∀ i c, writes (trace (poll fuel j a w t ip s).2) !! i = Some c → stores i c.
Proof.
  induction fuel as [|fuel IH]; intros j a w t ip s Hlen stores Hinv; [done|].
  destruct (poll_rounds j a w t ip s) as [(d & tok & Hr & Htok & Heq)|[_ Heq]];
    rewrite Heq.
  - apply IH.
    + rewrite writes_page, queries_page_list, !length_app. cbn [length]. lia.
    + intros i c. rewrite writes_page.
      intros [Hi|[Hi Hc]]%lookup_app_Some; [by apply Hinv|].
      apply list_lookup_singleton_Some in Hc as [Hz <-].
      assert (i = length (queries (trace s))) as -> by lia. by exists d, (Some true), (Some false).
  - destruct (poll 1 j a w t ip s) as [r s'] eqn:E. cbn [snd].
    destruct (poll_one_write _ _ _ _ _ _ _ _ E) as [->|(d & p & e & Hr & ->)]; [done|].
    intros i c [Hi|[Hi Hc]]%lookup_app_Some; [by apply Hinv|].
    apply list_lookup_singleton_Some in Hc as [Hz <-].
    assert (i = length (queries (trace s))) as -> by lia. by exists d, p, e.
Qed.

(** X2.  Every metadata write of an invocation stores a response of the
    service as it came: the [i]-th write carries the [i]-th response,
    under the asset and workflow ids of the event and the operator's
    name. *)
Theorem writes_store_the_pages fuel event h i c :
  writes (trace (lambda_handler fuel event (fresh h)).2) !! i = Some c →
  ∃ a w d p e, carries event "AssetId" a ∧
               carries event "WorkflowExecutionId" w ∧
               rek_reply env i = Answer d ∧
               c = StoreAssetMetadata a (PStr operator_name) w (PDict d) p e.
Proof.
  unfold CheckContentModerationStatus.lambda_handler. run.
  destruct (event !! "Status") as [st|]; run; [|done].
  destruct (event !! "MetaData") as [[]|] eqn:Hm; run; try done.
  destruct (d !! "AssetId") as [a|] eqn:Ha; run; [|done].
  destruct (py_eq_str st "Complete"); run; [done|].
  destruct (d !! "ContentModerationJobId") as [j|]; run; [|done].
  destruct (d !! "WorkflowExecutionId") as [w|] eqn:Hw; run; [|done].
  intros Hq.
  destruct (poll_writes fuel j a w (PStr "") false (fresh h) eq_refl) with (i := i) (c := c)
    as (d' & p & e & Hr & ->); [done|done|].
  exists a, w, d', p, e. split; [by exists d|]. split; [by exists d|done].
Qed.

Lemma poll_counts fuel : ∀ j a w t ip s,
  length (writes (trace s)) = length (queries (trace s)) →
  let s' := (poll fuel j a w t ip s).2 in
  length (writes (trace s')) ≤ length (queries (trace s')) ≤ S (length (writes (trace s'))).
Proof.
  induction fuel as [|fuel IH]; intros j a w t ip s Hlen; [cbn; lia|].
  destruct (poll_rounds j a w t ip s) as [(d & tok & Hr & Htok & Heq)|[_ Heq]];
    cbv zeta; rewrite Heq.
  - apply IH. rewrite writes_page, queries_page_list, !length_app. cbn [length]. lia.
  - destruct (poll 1 j a w t ip s) as [r s'] eqn:E. cbn [snd].
    rewrite (poll_one_query _ _ _ _ _ _ _ _ E), length_app. cbn [length].
    destruct (poll_one_write _ _ _ _ _ _ _ _ E) as [->|(d & p & e & Hr & ->)];
      rewrite ?length_app; cbn [length]; lia.
Qed.

(** X3.  An invocation never writes more often than it asks, and it asks
    at most once more than it writes: one write per response at most,
    and no response is fetched while the one before is not stored. *)
Theorem one_write_per_query fuel event h :
  let run := lambda_handler fuel event (fresh h) in
  length (writes (trace run.2)) ≤ length (queries (trace run.2)) ≤
  S (length (writes (trace run.2))).
Proof.
  intros run. subst run.
  destruct (handler_cases event (fresh h)) as [(j & a & w & Heq)|(r & s' & Heq & _ & Ht)];
    rewrite Heq.
  - by apply (poll_counts fuel j a w (PStr "") false (fresh h)).
  - cbn [snd]. rewrite Ht. cbn. lia.
Qed.

(** The end of the loop when a call raises, or a response lacks a key. *)
Lemma poll_query_raises fuel j a w t ip s msg :
  rek_reply env (length (queries (trace s))) = Fails msg →
  poll (S fuel) j a w t ip s =
  (Raise (ExternalError msg), after s [GetContentModeration j 1000 t]).
Proof. intros Hr. unroll. by rewrite Hr. Qed.

Lemma poll_write_raises fuel j a w t ip s r s' msg :
  more_pages (rek_reply env (length (queries (trace s)))) = true ∨
  last_page (rek_reply env (length (queries (trace s)))) = true →
  store_reply env (length (writes (trace s))) = Fails msg →
  poll (S fuel) j a w t ip s = (r, s') →
  r = Raise (ExternalError msg) ∧
  length (queries (trace s')) = S (length (queries (trace s))) ∧
  length (writes (trace s')) = S (length (writes (trace s))) ∧
  output_object s' = output_object s.
Proof.
  unfold more_pages, last_page, job_status, next_token. intros Hp Hs Hrun.
  unroll. cases.
  all: destruct Hp; try done.
  all: try match goal with
           | H1 : py_eq_str ?v ?a = true, H2 : py_eq_str ?v ?b = true |- _ =>
             by pose proof (py_eq_str_excl _ _ _ H1 H2)
           end.
  all: try congruence.
  all: rewrite ?queries_snoc, ?writes_snoc; cbn [is_query is_write];
       rewrite ?app_nil_r, ?length_app; cbn [length].
  all: repeat split; try lia; congruence.
Qed.

Lemma poll_failed_without_message fuel j a w t ip s d js :
  rek_reply env (length (queries (trace s))) = Answer d →
  d !! "JobStatus" = Some js →
  py_eq_str js "FAILED" = true →
  d !! "StatusMessage" = None →
  poll (S fuel) j a w t ip s =
  (Raise (KeyError "StatusMessage"),
   {| output_object := update_status "Error" (output_object s);
      trace := trace s ++ [GetContentModeration j 1000 t] |}).
Proof.
  intros Hr Hjs Hf Hm. apply py_eq_str_true in Hf as ->.
  unroll. rewrite Hr. run. rewrite Hjs. run. literals. by rewrite Hm.
Qed.

Lemma poll_in_progress_output fuel j a w t ip s js :
  job_status (rek_reply env (length (queries (trace s)))) = Some js →
  py_eq_str js "IN_PROGRESS" = true →
  (poll (S fuel) j a w t ip s).1 =
  Val (output_dict
         (add_metadata [("ContentModerationJobId", j); ("AssetId", a);
                        ("WorkflowExecutionId", w)]
            (update_status "Executing" (output_object s)))).
Proof.
  unfold job_status. intros Hjs Hip.
  destruct (rek_reply env _) as [d|] eqn:Hr; [|done].
  unroll. rewrite Hr. run. rewrite Hjs. run. by rewrite Hip.
Qed.

(** X4.  The adapter does not retry: when a status query raises, after
    [k] pages that were stored, the invocation ends with that very
    exception, after [k + 1] queries and [k] writes. *)
Theorem query_exception_is_not_retried k fuel event h st a j w msg :
  event !! "Status" = Some st →
  st ≠ PStr "Complete" →
  carries event "AssetId" a →
  carries event "ContentModerationJobId" j →
  carries event "WorkflowExecutionId" w →
  (∀ i, i < k → more_pages (rek_reply env i) = true ∧
                upload_ok (store_reply env i) = true) →
  rek_reply env k = Fails msg →
  k < fuel →
  let run := lambda_handler fuel event (fresh h) in
  run.1 = Raise (ExternalError msg) ∧
  length (queries (trace run.2)) = S k ∧
  length (writes (trace run.2)) = k.
Proof.
  intros Hst Hne Ha Hj Hw Hpages Hr Hfuel run. subst run.
  destruct (handler_through_pages k event h st a j w)
    as (t & s1 & Hrun & _ & Hq & Hws & Hnf); [done..|].
  replace fuel with (k + S (fuel - S k)) by lia. rewrite Hrun.
  rewrite (poll_query_raises _ _ _ _ _ _ _ msg) by (by rewrite Hq).
  cbn [fst snd after trace].
  rewrite queries_snoc, writes_snoc, length_app. cbn [is_query is_write length].
  rewrite app_nil_r. repeat split; [lia|done].
Qed.

(** X5.  Nor is a write retried: when the dataplane raises on the write
    of a SUCCEEDED response, after [k] pages that were stored, the
    invocation ends with that very exception after [k + 1] writes; the
    output object is left as it was. *)
Theorem write_exception_is_not_retried k fuel event h st a j w msg :
  event !! "Status" = Some st →
  st ≠ PStr "Complete" →
  carries event "AssetId" a →
  carries event "ContentModerationJobId" j →
  carries event "WorkflowExecutionId" w →
  (∀ i, i < k → more_pages (rek_reply env i) = true ∧
                upload_ok (store_reply env i) = true) →
  more_pages (rek_reply env k) = true ∨ last_page (rek_reply env k) = true →
  store_reply env k = Fails msg →
  k < fuel →
  let run := lambda_handler fuel event (fresh h) in
  run.1 = Raise (ExternalError msg) ∧
  length (queries (trace run.2)) = S k ∧
  length (writes (trace run.2)) = S k ∧
  output_object run.2 = h.
Proof.
  intros Hst Hne Ha Hj Hw Hpages Hp Hs Hfuel run. subst run.
  destruct (handler_through_pages k event h st a j w)
    as (t & s1 & Hrun & Hout & Hq & Hws & Hnf); [done..|].
  replace fuel with (k + S (fuel - S k)) by lia. rewrite Hrun.
  destruct (poll _ _ _ _ _ _ s1) as [r s'] eqn:E. cbn [fst snd].
  eapply poll_write_raises in E as (-> & Hq' & Hw' & Hout');
    [|by rewrite Hq|by rewrite Hws].
  repeat split; congruence.
Qed.

(** X6.  A FAILED response without StatusMessage is not turned into the
    structured failure: the lookup of the message raises KeyError, which
    nothing catches; by then the module's output object has been set to
    Status "Error". *)
Theorem failed_without_message_raises_KeyError k fuel event h st a j w d :
  event !! "Status" = Some st →
  st ≠ PStr "Complete" →
  carries event "AssetId" a →
  carries event "ContentModerationJobId" j →
  carries event "WorkflowExecutionId" w →
  (∀ i, i < k → more_pages (rek_reply env i) = true ∧
                upload_ok (store_reply env i) = true) →
  rek_reply env k = Answer d →
  d !! "JobStatus" = Some (PStr "FAILED") →
  d !! "StatusMessage" = None →
  k < fuel →
  let run := lambda_handler fuel event (fresh h) in
  run.1 = Raise (KeyError "StatusMessage") ∧
  status (output_object run.2) = PStr "Error" ∧
  metadata (output_object run.2) = metadata h.
Proof.
  intros Hst Hne Ha Hj Hw Hpages Hr Hjs Hm Hfuel run. subst run.
  destruct (handler_through_pages k event h st a j w)
    as (t & s1 & Hrun & Hout & Hq & Hws & Hnf); [done..|].
  replace fuel with (k + S (fuel - S k)) by lia. rewrite Hrun.
  erewrite poll_failed_without_message; [|by rewrite Hq|done..].
  cbn. by rewrite Hout.
Qed.

(** X7.  The output of a poll that found the job IN_PROGRESS is a valid
    event for the next poll: its Status is "Executing", its MetaData
    carries the job, asset and workflow ids of the event, and the handler
    run on it asks for the status of the same job. *)
Theorem executing_output_polls_again k fuel fuel' event h st a j w :
  event !! "Status" = Some st →
  st ≠ PStr "Complete" →
  carries event "AssetId" a →
  carries event "ContentModerationJobId" j →
  carries event "WorkflowExecutionId" w →
  (∀ i, i < k → more_pages (rek_reply env i) = true ∧
                upload_ok (store_reply env i) = true) →
  job_status (rek_reply env k) = Some (PStr "IN_PROGRESS") →
  k < fuel →
  let run := lambda_handler fuel event (fresh h) in
  ∃ o, run.1 = Val o ∧
       o !! "Status" = Some (PStr "Executing") ∧
       carries o "AssetId" a ∧
       carries o "ContentModerationJobId" j ∧
       carries o "WorkflowExecutionId" w ∧
       ∃ rest, trace (lambda_handler (S fuel') o (fresh (output_object run.2))).2 =
               GetContentModeration j 1000 (PStr "") :: rest.
Proof.
  intros Hst Hne Ha Hj Hw Hpages Hjs Hfuel run. subst run.
  destruct (handler_through_pages k event h st a j w)
    as (t & s1 & Hrun & Hout & Hq & Hws & Hnf); [done..|].
  replace fuel with (k + S (fuel - S k)) by lia. rewrite Hrun.
  rewrite (poll_in_progress_output _ _ _ _ _ _ _ (PStr "IN_PROGRESS"));
    [|by rewrite Hq|done].
  eexists. split; [done|].
  assert (∀ key v,
    metadata (add_metadata [("ContentModerationJobId", j); ("AssetId", a);
                            ("WorkflowExecutionId", w)]
                (update_status "Executing" (output_object s1))) !! key = Some v →
    carries (output_dict (add_metadata [("ContentModerationJobId", j); ("AssetId", a);
                                        ("WorkflowExecutionId", w)]
                            (update_status "Executing" (output_object s1)))) key v) as Hcar.
  { intros key v Hk. eexists. split; [|exact Hk].
    unfold output_dict. by simplify_map_eq. }
  assert (output_dict (add_metadata [("ContentModerationJobId", j); ("AssetId", a);
                                     ("WorkflowExecutionId", w)]
                         (update_status "Executing" (output_object s1))) !! "Status"
          = Some (PStr "Executing")) as Hstatus.
  { unfold output_dict. by simplify_map_eq. }
  assert (carries (output_dict (add_metadata [("ContentModerationJobId", j); ("AssetId", a);
                                        ("WorkflowExecutionId", w)]
                            (update_status "Executing" (output_object s1)))) "AssetId" a) as Ha'.
  { apply Hcar. cbn [add_metadata foldl metadata fst snd]. by simplify_map_eq. }
  assert (carries (output_dict (add_metadata [("ContentModerationJobId", j); ("AssetId", a);
                                        ("WorkflowExecutionId", w)]
                            (update_status "Executing" (output_object s1))))
            "ContentModerationJobId" j) as Hj'.
  { apply Hcar. cbn [add_metadata foldl metadata fst snd]. by simplify_map_eq. }
  assert (carries (output_dict (add_metadata [("ContentModerationJobId", j); ("AssetId", a);
                                        ("WorkflowExecutionId", w)]
                            (update_status "Executing" (output_object s1))))
            "WorkflowExecutionId" w) as Hw'.
  { apply Hcar. cbn [add_metadata foldl metadata fst snd]. by simplify_map_eq. }
  repeat split; try done.
  rewrite (handler_enters_loop _ _ _ (PStr "Executing") a j w) by done.
  apply poll_asks_first.
Qed.

(** X8.  An event whose MetaData is not a mapping is not answered with
    the structured failure: the subscript raises TypeError, which the
    handler's [except KeyError] lets through; nothing is called and the
    output object is left as it was. *)
Theorem metadata_not_a_mapping_raises_TypeError fuel event h st meta :
  event !! "Status" = Some st →
  event !! "MetaData" = Some meta →
  (∀ d, meta ≠ PDict d) →
  let run := lambda_handler fuel event (fresh h) in
  (∃ msg, run.1 = Raise (TypeError msg)) ∧ run.2 = fresh h.
Proof.
  intros Hst Hm Hnd run. subst run.
  unfold CheckContentModerationStatus.lambda_handler. run.
  rewrite Hst. run. rewrite Hm. run.
  destruct meta; run; try (split; [by eexists|done]).
  by destruct (Hnd d).
Qed.
End Run.










(** *** The theorems at concrete events, and where the claims fail *)

Import Scenarios.

Ltac carried := eexists; split; reflexivity.

Ltac not_returned :=
  let H := fresh in intros (? & H & _); vm_compute in H; discriminate H.

Ltac not_failed :=
  let H := fresh in intros (? & H & _); vm_compute in H; discriminate H.

Ltac is_failed := eexists; split; vm_compute; reflexivity.

Ltac is_returned := eexists; split; vm_compute; reflexivity.

(** One page, as in the example of the spec: the single write is the
    unpaginated one and the invocation is Complete. *)
Example single_page_complete :
  let run := invoke [final_page] [success] 1 polling in
  returned run.1 "Complete" ∧
  writes (trace run.2) =
    [StoreAssetMetadata (PStr "asset-1") (PStr "contentModeration") (PStr "wf-1")
       (PDict final_page) None None].
Proof. split; [is_returned|]. vm_compute. reflexivity. Qed.

(** C1 fails as stated: of two pages, the write of the first is
    answered without Status; the invocation makes one write, not two,
    and ends with the Error failure. *)
Lemma refused_page_write_ends_the_writes :
  let run := invoke [page "t1"; final_page] [no_status; success] 2 polling in
  more_pages (script [page "t1"; final_page] 0) = true ∧
  last_page (script [page "t1"; final_page] 1) = true ∧
  length (writes (trace run.2)) = 1 ∧
  Forall (λ c, marked_non_final c = true) (writes (trace run.2)) ∧
  failed_with_Error run.1.
Proof.
  split; [reflexivity|]. split; [reflexivity|]. split; [vm_compute; reflexivity|].
  split; [|is_failed]. vm_compute. repeat constructor.
Qed.

Lemma succeeded_pages_witness :
  let run := invoke [page "t1"; page "t2"; final_page] [success; success; success] 3 polling in
  length (writes (trace run.2)) = 3 ∧
  (∃ ws c, writes (trace run.2) = ws ++ [c] ∧ length ws = 2 ∧
           Forall (λ c, marked_non_final c = true) ws ∧ marked_final c = true) ∧
  returned run.1 "Complete".
Proof.
  destruct (succeeded_pages_written_and_complete plain_repr "contentModeration"
              (scripted [page "t1"; page "t2"; final_page] [success; success; success])
              3 3 polling idle (PStr "Executing") (PStr "asset-1") (PStr "j1") (PStr "wf-1"))
    as (H1 & H2 & H3).
  - reflexivity.
  - discriminate.
  - carried.
  - carried.
  - carried.
  - lia.
  - intros [|[|i]] Hi; [reflexivity..|simpl in Hi; lia].
  - reflexivity.
  - intros [|[|i]] Hi; [reflexivity..|simpl in Hi; lia].
  - lia.
  - split; [exact H1|]. split; [exact H2|]. apply H3. reflexivity.
Defined.

Lemma already_complete_witness :
  let run := invoke [] [] 1 complete_image in
  returned run.1 "Complete" ∧ trace run.2 = [].
Proof.
  apply (already_complete_returns_at_once plain_repr "contentModeration" (scripted [] [])
           1 complete_image idle (PStr "asset-1")).
  - reflexivity.
  - carried.
Defined.

(** C2 fails as stated: a Complete event without MetaData is answered
    with the Error failure. *)
Lemma complete_without_asset_id_is_error :
  let run := invoke [] [] 1 complete_bare in
  complete_bare !! "Status" = Some (PStr "Complete") ∧
  failed_with_Error run.1 ∧
  ¬ returned run.1 "Complete".
Proof. split; [reflexivity|]. split; [is_failed|not_returned]. Qed.

Lemma missing_key_witness :
  let run := invoke [] [] 1 error_no_job in
  failed_with_Error run.1 ∧ trace run.2 = [].
Proof.
  apply (missing_key_is_error_without_calls plain_repr "contentModeration" (scripted [] [])
           1 error_no_job idle).
  right. right. split; [discriminate|]. left. right. carried.
Defined.

(** C3 fails as stated: a Complete event without ContentModerationJobId
    is not an error; the adapter returns Complete. *)
Lemma complete_without_job_id_is_no_error :
  let run := invoke [] [] 1 complete_image in
  lacks complete_image "ContentModerationJobId" ∧
  returned run.1 "Complete" ∧
  ¬ failed_with_Error run.1.
Proof. split; [right; carried|]. split; [is_returned|not_failed]. Qed.





Lemma bad_write_witness :
  let run := invoke [page "t1"; final_page] [success; no_status] 2 polling in
  failed_with_Error run.1 ∧ ∀ st, ¬ returned run.1 st.
Proof.
  apply (bad_write_raises_error plain_repr "contentModeration"
           (scripted [page "t1"; final_page] [success; no_status]) 2 polling idle 1).
  - vm_compute. lia.
  - reflexivity.
Defined.

Lemma unknown_status_witness :
  let run := invoke [page "t1"; paused] [success] 2 polling in
  (∃ o, run.1 = Raise (MasExecutionError o) ∧
        Status_of o = Some (PStr "Error") ∧
        MetaData_of o "ContentModerationError" =
          Some (PStr "Unable to determine status")) ∧
  length (writes (trace run.2)) = 1.
Proof.
  apply (unknown_status_raises_error plain_repr "contentModeration"
           (scripted [page "t1"; paused] [success]) 1 2 polling idle
           (PStr "Executing") (PStr "asset-1") (PStr "j1") (PStr "wf-1") (PStr "PAUSED")).
  - reflexivity.
  - discriminate.
  - carried.
  - carried.
  - carried.
  - intros [|i] Hi; [split; reflexivity|lia].
  - reflexivity.
  - discriminate.
  - discriminate.
  - discriminate.
  - lia.
Defined.

Lemma poll_terminates_witness :
  let run := invoke [page "t1"; page "t2"; in_progress] [success; success] 3 polling in
  run.1 ≠ OutOfFuel ∧
  invoke [page "t1"; page "t2"; in_progress] [success; success] 10 polling = run ∧
  length (queries (trace run.2)) ≤ 3.
Proof.
  apply (poll_terminates_within_pages plain_repr "contentModeration"
           (scripted [page "t1"; page "t2"; in_progress] [success; success])
           2 10 polling idle).
  - reflexivity.
  - lia.
Defined.

Lemma not_complete_witness :
  ∃ rest, trace (invoke [in_progress] [] 1 polling).2 =
          GetContentModeration (PStr "j1") 1000 (PStr "") :: rest.
Proof.
  apply (not_complete_queries_service plain_repr "contentModeration"
           (scripted [in_progress] []) 0 polling idle
           (PStr "Executing") (PStr "asset-1") (PStr "j1") (PStr "wf-1")).
  - reflexivity.
  - discriminate.
  - carried.
  - carried.
  - carried.
Defined.

(** C10 fails as stated: an event in Status "Error" without a job id is
    answered at once with the Error failure; the service is not asked. *)
Lemma status_error_without_job_id_makes_no_query :
  let run := invoke [in_progress] [] 1 error_no_job in
  error_no_job !! "Status" = Some (PStr "Error") ∧
  failed_with_Error run.1 ∧
  trace run.2 = [].
Proof.
  split; [reflexivity|]. split; [is_failed|]. vm_compute. reflexivity.
Qed.


(** *** The further properties at concrete events *)

Import MoreScenarios.

Lemma queries_chain_tokens_witness :
  ∃ j t, carries polling "ContentModerationJobId" j ∧
         token_for (scripted [page "t1"; in_progress] [success]) 1 = Some t ∧
         GetContentModeration (PStr "j1") 1000 (PStr "t1") = GetContentModeration j 1000 t.
Proof.
  apply (queries_chain_tokens plain_repr "contentModeration"
           (scripted [page "t1"; in_progress] [success]) 2 polling idle 1).
  vm_compute. reflexivity.
Defined.

Lemma writes_store_the_pages_witness :
  ∃ a w d p e, carries polling "AssetId" a ∧
               carries polling "WorkflowExecutionId" w ∧
               script [page "t1"; in_progress] 0 = Answer d ∧
               StoreAssetMetadata (PStr "asset-1") (PStr "contentModeration") (PStr "wf-1")
                 (PDict (page "t1")) (Some true) (Some false) =
               StoreAssetMetadata a (PStr "contentModeration") w (PDict d) p e.
Proof.
  apply (writes_store_the_pages plain_repr "contentModeration"
           (scripted [page "t1"; in_progress] [success]) 2 polling idle 0).
  vm_compute. reflexivity.
Defined.

Lemma query_exception_witness :
  let run := invoke [page "t1"] [success] 2 polling in
  run.1 = Raise (ExternalError "no further answer") ∧
  length (queries (trace run.2)) = 2 ∧
  length (writes (trace run.2)) = 1.
Proof.
  apply (query_exception_is_not_retried plain_repr "contentModeration"
           (scripted [page "t1"] [success]) 1 2 polling idle
           (PStr "Executing") (PStr "asset-1") (PStr "j1") (PStr "wf-1")).
  - reflexivity.
  - discriminate.
  - carried.
  - carried.
  - carried.
  - intros [|i] Hi; [split; reflexivity|lia].
  - reflexivity.
  - lia.
Defined.

Lemma write_exception_witness :
  let run := invoke [final_page] [] 1 polling in
  run.1 = Raise (ExternalError "no further answer") ∧
  length (queries (trace run.2)) = 1 ∧
  length (writes (trace run.2)) = 1 ∧
  output_object run.2 = idle.
Proof.
  apply (write_exception_is_not_retried plain_repr "contentModeration"
           (scripted [final_page] []) 0 1 polling idle
           (PStr "Executing") (PStr "asset-1") (PStr "j1") (PStr "wf-1")).
  - reflexivity.
  - discriminate.
  - carried.
  - carried.
  - carried.
  - intros i Hi. lia.
  - right. reflexivity.
  - reflexivity.
  - lia.
Defined.

Lemma failed_without_message_witness :
  let run := invoke [failed_bare] [] 1 polling in
  run.1 = Raise (KeyError "StatusMessage") ∧
  status (output_object run.2) = PStr "Error" ∧
  metadata (output_object run.2) = metadata idle.
Proof.
  apply (failed_without_message_raises_KeyError plain_repr "contentModeration"
           (scripted [failed_bare] []) 0 1 polling idle
           (PStr "Executing") (PStr "asset-1") (PStr "j1") (PStr "wf-1") failed_bare).
  - reflexivity.
  - discriminate.
  - carried.
  - carried.
  - carried.
  - intros i Hi. lia.
  - reflexivity.
  - reflexivity.
  - reflexivity.
  - lia.
Defined.

Lemma executing_output_witness :
  let run := invoke [in_progress] [] 1 polling in
  ∃ o, run.1 = Val o ∧
       o !! "Status" = Some (PStr "Executing") ∧
       carries o "AssetId" (PStr "asset-1") ∧
       carries o "ContentModerationJobId" (PStr "j1") ∧
       carries o "WorkflowExecutionId" (PStr "wf-1") ∧
       ∃ rest,
         trace (CheckContentModerationStatus.lambda_handler plain_repr "contentModeration"
                  (scripted [in_progress] []) 1 o (fresh (output_object run.2))).2 =
         GetContentModeration (PStr "j1") 1000 (PStr "") :: rest.
Proof.
  apply (executing_output_polls_again plain_repr "contentModeration"
           (scripted [in_progress] []) 0 1 0 polling idle
           (PStr "Executing") (PStr "asset-1") (PStr "j1") (PStr "wf-1")).
  - reflexivity.
  - discriminate.
  - carried.
  - carried.
  - carried.
  - intros i Hi. lia.
  - reflexivity.
  - lia.
Defined.

Lemma metadata_not_a_mapping_witness :
  let run := invoke [in_progress] [] 1 metadata_text in
  (∃ msg, run.1 = Raise (TypeError msg)) ∧ run.2 = fresh idle.
Proof.
  apply (metadata_not_a_mapping_raises_TypeError plain_repr "contentModeration"
           (scripted [in_progress] []) 1 metadata_text idle
           (PStr "Executing") (PStr "asset-1")).
  - reflexivity.
  - reflexivity.
  - discriminate.
Defined.

End PollAdapter.

(** * Properties of the data lookup *)

Module DataLookup.
Import GenericDataLookup.

Lemma Status_of_operation h : Status_of (operation_output h) = Some (status (base h)).
Proof. unfold Status_of, operation_output, output_dict. by simplify_map_eq. Qed.

Section Run.

Context (py_repr : pyval → string)
        (new_helper : dict → pyexn + OperationHelper)
        (env : world).

Lemma quiet_ret {A} (a : A) : quiet (mret a).
Proof. intros s r s' H. by injection H as _ <-. Qed.

Lemma quiet_raise {A} e : quiet (raise e : M state A).
Proof. intros s r s' H. by injection H as _ <-. Qed.

Lemma quiet_lift {A} (x : pyexn + A) : quiet (lift x).
Proof. destruct x; [apply quiet_raise|apply quiet_ret]. Qed.

Lemma quiet_get : quiet get.
Proof. intros s r s' H. by injection H as _ <-. Qed.

Lemma quiet_update_workflow_status st : quiet (update_workflow_status st).
Proof. intros s r s' H. by injection H as _ <-. Qed.

Lemma quiet_add_workflow_metadata kw : quiet (add_workflow_metadata kw).
Proof. intros s r s' H. by injection H as _ <-. Qed.

Lemma quiet_return_output_object : quiet return_output_object.
Proof. intros s r s' H. by injection H as _ <-. Qed.

Lemma quiet_bind {A B} (c : M state A) (k : A → M state B) :
  quiet c → (∀ a, quiet (k a)) → quiet (c ≫= k).
Proof.
  intros Hc Hk s r s' H. unfold mbind, M_bind, bind in H.
  destruct (c s) as [[a|e|] s1] eqn:E; apply Hc in E.
  - apply Hk in H. congruence.
  - by simplify_eq.
  - by simplify_eq.
Qed.

Lemma quiet_try_Exception {A} (c : M state A) h :
  quiet c → (∀ e, quiet (h e)) → quiet (try_Exception c h).
Proof.
  intros Hc Hh s r s' H. unfold try_Exception in H.
  destruct (c s) as [[a|e|] s1] eqn:E; apply Hc in E.
  - by simplify_eq.
  - apply Hh in H. congruence.
  - by simplify_eq.
Qed.

Lemma quiet_raise_mas {A} : quiet (raise_mas : M state A).
Proof.
  apply quiet_bind; [apply quiet_return_output_object|]. intros o. apply quiet_raise.
Qed.

Create HintDb quiet.
Hint Resolve quiet_ret quiet_raise quiet_lift quiet_get quiet_update_workflow_status
  quiet_add_workflow_metadata quiet_return_output_object quiet_raise_mas : quiet.

Ltac quiet_steps :=
  repeat first
    [ progress auto with quiet
    | apply quiet_bind
    | apply quiet_try_Exception
    | match goal with
      | |- ∀ _, _ => intro
      | |- quiet (if ?b then _ else _) => destruct b
      | |- quiet (match ?x with _ => _ end) => destruct x
      | |- quiet (let (_, _) := ?x in _) => destruct x
      end ].

Lemma quiet_has_media kind : quiet (has_media kind).
Proof. unfold has_media. quiet_steps. Qed.

Lemma quiet_media_location kind : quiet (media_location kind).
Proof. unfold media_location. quiet_steps. Qed.

Hint Resolve quiet_has_media quiet_media_location : quiet.

Lemma quiet_get_parameters event : quiet (get_parameters py_repr event).
Proof. unfold get_parameters. quiet_steps. Qed.

Lemma quiet_get_metadata_filename key : quiet (get_metadata_filename key).
Proof. unfold get_metadata_filename. quiet_steps. Qed.


Ltac run :=
  cbv beta iota zeta delta
    [lift mbind M_bind mret M_ret bind ret raise raise_mas try_Exception
     update_workflow_status add_workflow_metadata return_output_object print emit get
     concat get_metadata] in *;
  cbn [operator_object trace fst snd] in *.

Lemma failed_with_Error_operation h :
  status (base h) = PStr "Error" →
  failed_with_Error (Raise (MasExecutionError (operation_output h))).
Proof. intros H. eexists. split; [done|]. by rewrite Status_of_operation, H. Qed.

(** What sequencing does. *)
Lemma bind_inv {A B} (c : M state A) (k : A → M state B) s r s' :
  (c ≫= k) s = (r, s') →
  (∃ a s1, c s = (Val a, s1) ∧ k a s1 = (r, s')) ∨
  (∃ e, c s = (Raise e, s') ∧ r = Raise e) ∨
  (c s = (OutOfFuel, s') ∧ r = OutOfFuel).
Proof.
  unfold mbind, M_bind, bind. intros H.
  destruct (c s) as [[a|e|] s1]; simplify_eq; eauto 6.
Qed.

(** C8.  If the handler fetched the JSON document at a bucket and key
    and the document cannot be read, or decodes to a value that is no
    dict, the operator raises the Error failure and makes no metadata
    write. *)
Theorem unusable_document_is_error event bucket key :
  let run := lambda_handler py_repr new_helper env event in
  In (S3GetObject bucket key) run.2 →
  unusable (s3_json env bucket key) = true →
  failed_with_Error run.1 ∧ writes run.2 = [].
Proof.
  intros run Hin Hbad. subst run. unfold lambda_handler in *.
  destruct (new_helper event) as [e|h]; [done|].
  destruct (handle py_repr env event _) as [r s'] eqn:E. cbn [fst snd] in *.
  unfold handle in E.
  apply bind_inv in E as [([[wid aid] loc] & s1 & E1 & E)|[(e & E1 & ->)|[E1 ->]]];
    apply quiet_get_parameters in E1; cbn [trace] in E1; try (by rewrite E1 in Hin).
  apply bind_inv in E as [([b k] & s2 & E2 & E)|[(e & E2 & ->)|[E2 ->]]].
  2,3: destruct loc as [[[] []]|]; run; simplify_eq; by rewrite E1 in Hin.
  assert (s2 = s1) as ->.
  { destruct loc as [[[] []]|]; run; by simplify_eq. }
  clear E2.
  apply bind_inv in E as [([] & s3 & E3 & E)|[(e & E3 & ->)|[E3 ->]]];
    run; simplify_eq.
  rewrite E1 in E.
  apply bind_inv in E as [(fname & s4 & E4 & E)|[(e & E4 & ->)|[E4 ->]]];
    apply quiet_get_metadata_filename in E4; cbn [trace] in E4;
    try (rewrite E4 in Hin; by destruct Hin).
  clear E1.
  repeat (case_match; simplify_eq; run).
  all: rewrite ?E4 in Hin |- *; rewrite ?in_app_iff in Hin; cbn [In] in Hin.
  all: repeat (destruct Hin as [Hin|Hin]; try discriminate Hin; try done).
  all: simplify_eq;
    try match goal with E : s3_json _ _ _ = _ |- _ => rewrite E in Hbad end;
    cbn [unusable] in Hbad; try congruence.
  all: split; [by apply failed_with_Error_operation|reflexivity].
Qed.

End Run.


(** *** The theorem at a concrete event *)

Import Scenarios.

(** A document that is a JSON list: the type check of line 89 refuses it. *)
Lemma unusable_document_witness :
  let run := lambda_handler plain_repr helper_of list_document video_event in
  failed_with_Error run.1 ∧ writes run.2 = [].
Proof.
  apply (unusable_document_is_error plain_repr helper_of list_document video_event
           (PStr "dataplane") (PStr "Demo Video 01.json")).
  - vm_compute. right. right. left. reflexivity.
  - reflexivity.
Defined.

Example list_document_message :
  let run := lambda_handler plain_repr helper_of list_document video_event in
  ∃ o, run.1 = Raise (MasExecutionError o) ∧
       MetaData_of o "GenericDataLookupError" =
         Some (PStr "Metadata must be of type dict. Found <class 'list'> instead.").
Proof. eexists. split; vm_compute; reflexivity. Qed.

(** A document that is not there: the fetch raises and the handler
    reports it. *)
Example no_document_message :
  let run := lambda_handler plain_repr helper_of no_document video_event in
  (∃ o, run.1 = Raise (MasExecutionError o) ∧
        Status_of o = Some (PStr "Error") ∧
        MetaData_of o "GenericDataLookupError" =
          Some (PStr "Unable read datafile. NoSuchKey")) ∧
  run.2 = [Print "Looking up metadata for s3://dataplane/Demo Video 01.mp4";
           Print "Getting data from s3://dataplane/Demo Video 01.json";
           S3GetObject (PStr "dataplane") (PStr "Demo Video 01.json")].
Proof.
  split; [eexists; split; [|split]; vm_compute; reflexivity|].
  vm_compute. reflexivity.
Qed.

End DataLookup.

(** * More properties of the data lookup *)

Module DataLookupMore.
Import GenericDataLookup.
Import DataLookup.

(** *** Splitting and joining *)

Lemma append_nil_l (s : string) : EmptyString +:+ s = s.
Proof. reflexivity. Qed.

Lemma append_cons c (x y : string) : String c x +:+ y = String c (x +:+ y).
Proof. reflexivity. Qed.

Lemma split_nonempty sep s : split sep s ≠ [].
Proof.
  destruct s as [|c s]; cbn [split]; [done|].
  case_decide; [done|]. by destruct (split sep s).
Qed.

Lemma split_app sep x y :
  split sep (x +:+ String sep y) = split sep x ++ split sep y.
Proof.
  induction x as [|c x IH]; rewrite ?append_nil_l, ?append_cons; cbn [split].
  - by rewrite decide_True.
  - rewrite IH. case_decide; [done|].
    pose proof (split_nonempty sep x). by destruct (split sep x).
Qed.

Lemma split_absent sep s : occurs sep s = false → split sep s = [s].
Proof.
  induction s as [|c s IH]; cbn [split occurs]; [done|].
  intros [Hc Hs]%orb_false_iff. apply bool_decide_eq_false in Hc.
  rewrite decide_False by done. by rewrite IH.
Qed.

Lemma join_cons sep c w ws :
  join sep (String c w :: ws) = String c (join sep (w :: ws)).
Proof. by destruct ws. Qed.

(** Joining what was split gives the string back. *)
Lemma join_split sep s : join (String sep EmptyString) (split sep s) = s.
Proof.
  induction s as [|c s IH]; cbn [split]; [done|].
  pose proof (split_nonempty sep s) as Hne.
  case_decide as Hc.
  - subst c. destruct (split sep s) as [|w ws]; [done|].
    change (join ?p (?a :: w :: ws)) with (a +:+ p +:+ join p (w :: ws)).
    by rewrite IH.
  - destruct (split sep s) as [|w ws]; [done|].
    by rewrite join_cons, IH.
Qed.

Lemma occurs_app c x y : occurs c (x +:+ y) = occurs c x || occurs c y.
Proof.
  induction x as [|c' x IH]; rewrite ?append_nil_l, ?append_cons; cbn [occurs]; [done|].
  by rewrite IH, orb_assoc.
Qed.

Lemma append_assoc (x y z : string) : (x +:+ y) +:+ z = x +:+ (y +:+ z).
Proof.
  induction x as [|c x IH]; rewrite ?append_nil_l, ?append_cons; [done|].
  by rewrite IH.
Qed.

(** The media file name is what follows the last slash of the key. *)
Lemma media_filename_of prefix name :
  prefix = EmptyString ∨ (∃ dir, prefix = dir +:+ "/") →
  occurs "/" name = false →
  List.last (split "/" (prefix +:+ name)) EmptyString = name.
Proof.
  intros [->|[dir ->]] Hname.
  - rewrite append_nil_l. by rewrite split_absent.
  - rewrite append_assoc, append_cons, append_nil_l.
    rewrite split_app, (split_absent _ name) by done. apply last_last.
Qed.

(** The documented naming: [stem.ext] under any prefix gives
    [stem.json]. *)
Lemma default_metadata_filename_ext prefix stem ext :
  prefix = EmptyString ∨ (∃ dir, prefix = dir +:+ "/") →
  occurs "/" stem = false → occurs "/" ext = false → occurs "." ext = false →
  default_metadata_filename (prefix +:+ stem +:+ "." +:+ ext) = stem +:+ ".json".
Proof.
  intros Hprefix Hstem Hext Hdot. unfold default_metadata_filename. cbv zeta.
  rewrite media_filename_of; [|done|].
  - rewrite append_cons, append_nil_l, split_app, (split_absent _ ext) by done.
    by rewrite removelast_last, join_split.
  - rewrite occurs_app, append_cons, append_nil_l. cbn [occurs]. rewrite Hstem, Hext.
    by vm_compute.
Qed.

(** A key without extension gives [.json]: nothing of the name is
    kept. *)
Lemma default_metadata_filename_no_ext prefix name :
  prefix = EmptyString ∨ (∃ dir, prefix = dir +:+ "/") →
  occurs "/" name = false → occurs "." name = false →
  default_metadata_filename (prefix +:+ name) = ".json".
Proof.
  intros Hprefix Hname Hdot. unfold default_metadata_filename. cbv zeta.
  rewrite media_filename_of by done. by rewrite split_absent.
Qed.

Section Run.

Context (py_repr : pyval → string)
        (new_helper : dict → pyexn + OperationHelper)
        (env : world).

Ltac run :=
  cbv beta iota zeta delta
    [lift mbind M_bind mret M_ret bind ret raise raise_mas try_Exception
     update_workflow_status add_workflow_metadata return_output_object print emit get
     concat get_metadata] in *;
  cbn [operator_object trace fst snd] in *.

Ltac run_all :=
  cbv beta iota zeta delta
    [lift mbind M_bind mret M_ret bind ret raise raise_mas try_Exception
     update_workflow_status add_workflow_metadata return_output_object print emit get
     concat get_metadata get_parameters has_media media_location file_type_of
     get_metadata_filename dict_getitem py_getitem py_contains] in *;
  cbn [operator_object trace fst snd input configuration base with_base] in *.

Lemma steady_ret {A} (a : A) : steady (mret a).
Proof. intros s r s' H. by injection H as _ <-. Qed.

Lemma steady_raise {A} e : steady (raise e : M state A).
Proof. intros s r s' H. discriminate H. Qed.

Lemma steady_lift {A} (x : pyexn + A) : steady (lift x).
Proof. destruct x; [apply steady_raise|apply steady_ret]. Qed.

Lemma steady_get : steady get.
Proof. intros s r s' H. by injection H as _ <-. Qed.

Lemma steady_bind {A B} (c : M state A) (k : A → M state B) :
  steady c → (∀ a, steady (k a)) → steady (c ≫= k).
Proof.
  intros Hc Hk s r s' H.
  apply bind_inv in H as [(a & s1 & E & H)|[(e & _ & ?)|[_ ?]]]; [|done..].
  apply Hc in E as ->. by apply Hk in H.
Qed.

Create HintDb steady.
Hint Resolve steady_ret steady_raise steady_lift steady_get : steady.

Ltac steady_steps :=
  repeat first
    [ progress auto with steady
    | apply steady_bind
    | match goal with
      | |- ∀ _, _ => intro
      | |- steady (if ?b then _ else _) => destruct b
      | |- steady (match ?x with _ => _ end) => destruct x
      end ].

Lemma steady_has_media kind : steady (has_media kind).
Proof. unfold has_media. steady_steps. Qed.

Lemma steady_media_location kind : steady (media_location kind).
Proof. unfold media_location. steady_steps. Qed.

Hint Resolve steady_has_media steady_media_location : steady.

Lemma steady_get_metadata_filename key : steady (get_metadata_filename key).
Proof. unfold get_metadata_filename. steady_steps. Qed.

(** When the parameters are found, nothing has been touched, and the
    ids are those of the event. *)
Lemma get_parameters_val event s wid aid loc s' :
  get_parameters py_repr event s = (Val (wid, aid, loc), s') →
  s' = s ∧
  ∃ v, event !! "WorkflowExecutionId" = Some v ∧ wid = py_str py_repr v ∧
       event !! "AssetId" = Some aid.
Proof.
  unfold get_parameters, try_Exception.
  match goal with |- context [match ?c s with _ => _ end] =>
    destruct (c s) as [[[[wid' aid'] loc']|e|] s1] eqn:E end;
    [|run; discriminate|discriminate].
  intros ?. simplify_eq.
  apply bind_inv in E as [(v & s1 & E1 & E)|[(e & _ & ?)|[_ ?]]]; [|done..].
  unfold lift, dict_getitem in E1.
  destruct (event !! "WorkflowExecutionId") as [v'|] eqn:Hv; [|done].
  unfold mret, M_ret, ret in E1. injection E1 as Hv' Hs1. subst v' s1. cbv zeta in E.
  apply bind_inv in E as [(v2 & s2 & E2 & E)|[(e & _ & ?)|[_ ?]]]; [|done..].
  unfold lift, dict_getitem in E2.
  destruct (event !! "AssetId") as [v2'|] eqn:Hv2; [|done].
  unfold mret, M_ret, ret in E2. injection E2 as Hv2' Hs2. subst v2' s2.
  assert (s' = s ∧ wid = py_str py_repr v ∧ aid = v2) as (-> & -> & ->).
  { revert E. generalize (py_str py_repr v). intros w E.
    repeat (apply bind_inv in E as [([] & ? & E1 & E)|[(? & _ & ?)|[_ ?]]]; [| |done..];
            apply steady_has_media in E1 as ->;
            [apply bind_inv in E as [(? & ? & E1 & E)|[(? & _ & ?)|[_ ?]]]; [|done..];
             apply steady_media_location in E1 as ->;
             unfold mret, M_ret, ret in E; by simplify_eq|]).
    unfold mret, M_ret, ret in E. by simplify_eq. }
  split; [done|]. by exists v.
Qed.

Abbreviation upload_ok := CheckContentModerationStatus.upload_ok.

Ltac no_call_left :=
  left; cbn [trace app];
  split; [intros ? ? Hin; cbn [In] in Hin; intuition discriminate|];
  split; [reflexivity|intros ?; discriminate].

Ltac run_in H :=
  cbv beta iota zeta delta
    [lift mbind M_bind mret M_ret bind ret raise raise_mas try_Exception
     update_workflow_status add_workflow_metadata return_output_object print emit get
     concat get_metadata] in H;
  cbn [operator_object trace fst snd] in H.

(** Line 69 needs both names bound to strings. *)
Lemma location_cases (loc : option (pyval * pyval)) (s : state) r s' :
  match loc with
  | None => raise (UnboundLocalError "bucket")
  | Some (PStr bucket, PStr key) => mret (bucket, key)
  | Some (PStr _, key) => raise (TypeError (concat_error key))
  | Some (bucket, _) => raise (TypeError (concat_error bucket))
  end s = (r, s') →
  s' = s ∧ ∀ o, r = Val o → loc = Some (PStr o.1, PStr o.2).
Proof.
  intros H. destruct loc as [[[] []]|]; run_in H; simplify_eq.
  all: split; [done|]; intros o Ho; by simplify_eq.
Qed.

(** The anatomy of an invocation: either it ends before the document is
    fetched, having called nothing but [print], or it fetches one
    document and, if that is a dict, stores it once. *)
Lemma handle_anatomy event h r s' :
  handle py_repr env event {| operator_object := h; trace := [] |} = (r, s') →
  ((∀ b k, ¬ In (S3GetObject b k) (trace s')) ∧ writes (trace s') = [] ∧ ∀ o, r ≠ Val o) ∨
  ∃ b key f v aid rest,
    event !! "WorkflowExecutionId" = Some v ∧
    event !! "AssetId" = Some aid ∧
    get_metadata_filename key {| operator_object := h; trace := [] |} =
      (Val (PStr f), {| operator_object := h; trace := [] |}) ∧
    trace s' = [Print ("Looking up metadata for s3://" +:+ b +:+ "/" +:+ key);
                Print (("Getting data from s3://" +:+ b +:+ "/") +:+ f);
                S3GetObject (PStr b) (PStr f)] ++ rest ∧
    match s3_json env (PStr b) (PStr f) with
    | inr (PDict d) =>
      ∃ rest', rest = StoreAssetMetadata aid (name (base h)) (PStr (py_str py_repr v))
                        (PDict d) None None :: rest' ∧
               match store_reply env with
               | Fails msg => r = Raise (ExternalError msg) ∧ rest' = []
               | Answer u =>
                 if upload_ok (Answer u)
                 then returned r "Complete" ∧
                      rest' = [Print ("Uploaded metadata for asset: " +:+ py_str py_repr aid)]
                 else failed_with_Error r ∧ rest' = []
               end
    | _ => rest = [] ∧ failed_with_Error r
    end.
Proof.
  intros E. unfold handle in E.
  apply bind_inv in E as [([[wid aid] loc] & s1 & E1 & E)|[(e & E1 & ->)|[E1 ->]]].
  2,3: apply (quiet_get_parameters py_repr) in E1; cbn [trace] in E1; left; rewrite E1;
       (split; [intros ? ? []|]; split; [reflexivity|intros ?; discriminate]).
  apply get_parameters_val in E1 as (-> & v & Hv & -> & Ha).
  apply bind_inv in E as [([b k] & s2 & E2 & E)|[(e & E2 & ->)|[E2 ->]]].
  2,3: apply location_cases in E2 as [-> _]; no_call_left.
  apply location_cases in E2 as [-> _].
  apply bind_inv in E as [([] & s3 & E3 & E)|[(e & E3 & ->)|[E3 ->]]];
    run_in E3; simplify_eq.
  apply bind_inv in E as [(fname & s4 & E4 & E)|[(e & E4 & ->)|[E4 ->]]].
  2,3: apply quiet_get_metadata_filename in E4; cbn [trace] in E4; left; rewrite E4;
       cbn [app];
       (split; [intros ? ? Hin; cbn [In] in Hin; intuition discriminate|]);
       (split; [reflexivity|intros ?; discriminate]).
  pose proof E4 as E5. apply steady_get_metadata_filename in E5 as ->.
  assert (get_metadata_filename k {| operator_object := h; trace := [] |} =
          (Val fname, {| operator_object := h; trace := [] |})) as Hname.
  { clear E. revert E4. unfold get_metadata_filename. run.
    repeat case_match; intros; by simplify_eq. }
  clear E4.
  destruct fname; run; simplify_eq.
  1-4,6,7: no_call_left.
  right. exists b, k, s, v, aid.
  destruct (s3_json env (PStr b) (PStr s)) as [msg|doc] eqn:Hdoc; run; simplify_eq.
  { exists []. split; [exact Hv|]. split; [exact Ha|]. split; [exact Hname|].
    split; [reflexivity|]. split; [reflexivity|].
    apply failed_with_Error_operation. reflexivity. }
  destruct doc; run; simplify_eq.
  1-6: exists []; (split; [exact Hv|]); (split; [exact Ha|]); (split; [exact Hname|]);
       (split; [reflexivity|]); (split; [reflexivity|]);
       apply failed_with_Error_operation; reflexivity.
  unfold upload_ok, CheckContentModerationStatus.upload_ok.
  destruct (store_reply env) as [u|msg]; run; simplify_eq.
  2: { eexists. split; [exact Hv|]. split; [exact Ha|]. split; [exact Hname|].
       split; [reflexivity|]. eexists. split; [reflexivity|]. split; reflexivity. }
  destruct (u !! "Status") as [st|]; run; simplify_eq.
  - destruct (py_eq_str st "Success"); run; simplify_eq.
    + eexists. split; [exact Hv|]. split; [exact Ha|]. split; [exact Hname|].
      split; [reflexivity|]. eexists. split; [reflexivity|]. split; [|reflexivity].
      eexists. split; [reflexivity|]. rewrite Status_of_operation. reflexivity.
    + eexists. split; [exact Hv|]. split; [exact Ha|]. split; [exact Hname|].
      split; [reflexivity|]. eexists. split; [reflexivity|]. split; [|reflexivity].
      apply failed_with_Error_operation. reflexivity.
  - eexists. split; [exact Hv|]. split; [exact Ha|]. split; [exact Hname|].
    split; [reflexivity|]. eexists. split; [reflexivity|]. split; [|reflexivity].
    apply failed_with_Error_operation. reflexivity.
Qed.

(** X9.  Whatever the handler writes to the dataplane is the document it
    fetched: a write is the only one of the invocation, it comes after
    the fetch, and it stores the dict that the fetch gave, unpaginated,
    under the AssetId of the event, the name of the operator and the str
    of the event's WorkflowExecutionId. *)
Theorem stored_document_is_the_fetched_one event c :
  let run := lambda_handler py_repr new_helper env event in
  In c (writes run.2) →
  ∃ h b f d v aid,
    new_helper event = inr h ∧
    event !! "WorkflowExecutionId" = Some v ∧
    event !! "AssetId" = Some aid ∧
    In (S3GetObject (PStr b) (PStr f)) run.2 ∧
    s3_json env (PStr b) (PStr f) = inr (PDict d) ∧
    c = StoreAssetMetadata aid (name (base h)) (PStr (py_str py_repr v)) (PDict d)
          None None ∧
    writes run.2 = [c].
Proof.
  intros run Hc. subst run. unfold lambda_handler in *.
  destruct (new_helper event) as [e|h]; [done|].
  destruct (handle py_repr env event _) as [r s'] eqn:E. cbn [fst snd] in *.
  apply handle_anatomy in E
    as [(_ & Hw & _)|(b & key & f & v & aid & rest & Hv & Ha & _ & Ht & Hrest)].
  { rewrite Hw in Hc. destruct Hc. }
  rewrite Ht in Hc |- *.
  destruct (s3_json env (PStr b) (PStr f)) as [msg|[]] eqn:Hdoc;
    try (destruct Hrest as [-> _]; destruct Hc).
  destruct Hrest as (rest' & -> & Hrest).
  assert (rest' = [] ∨ ∃ line, rest' = [Print line]) as Hrest'.
  { destruct (store_reply env) as [u|msg]; [destruct (upload_ok (Answer u))|];
      destruct Hrest as [_ ->]; eauto. }
  exists h, b, f, d, v, aid. do 3 (split; [done|]).
  split; [cbn; auto|]. split; [done|].
  destruct Hrest' as [->|[line ->]]; cbn in Hc |- *.
  all: destruct Hc as [<-|[]]; done.
Qed.

(** X10.  The handler returns only with Status "Complete", and it does
    so exactly when it has stored a document and the dataplane answered
    the write with Status "Success". *)
Theorem complete_iff_stored event :
  let run := lambda_handler py_repr new_helper env event in
  (∀ st, returned run.1 st → st = "Complete") ∧
  (returned run.1 "Complete" ↔
   writes run.2 ≠ [] ∧ upload_ok (store_reply env) = true).
Proof.
  intros run. subst run. unfold lambda_handler in *.
  destruct (new_helper event) as [e|h].
  { cbn. split; [by intros st (o & ? & _)|]. split; [by intros (o & ? & _)|by intros []]. }
  destruct (handle py_repr env event _) as [r s'] eqn:E. cbn [fst snd] in *.
  apply handle_anatomy in E
    as [(_ & Hw & Hr)|(b & key & f & v & aid & rest & Hv & Ha & _ & Ht & Hrest)].
  { rewrite Hw. split; [intros st (o & ? & _); by destruct (Hr o)|].
    split; [intros (o & ? & _); by destruct (Hr o)|by intros []]. }
  rewrite Ht.
  assert (∀ st, ¬ (failed_with_Error r ∧ returned r st)) as Hnot.
  { intros st [(o & -> & _) (o' & ? & _)]. done. }
  assert (∀ st, returned r "Complete" → returned r st → st = "Complete") as Hcomp.
  { intros st (o & Hr1 & Ho) (o' & Hr2 & Ho'). rewrite Hr1 in Hr2.
    injection Hr2 as <-. congruence. }
  destruct (s3_json env (PStr b) (PStr f)) as [msg|[]] eqn:Hdoc;
    try (destruct Hrest as [-> Hf];
         split; [intros st Hst; by destruct (Hnot st)|];
         split; [intros Hst; by destruct (Hnot "Complete")|by intros []]).
  destruct Hrest as (rest' & -> & Hrest).
  destruct (store_reply env) as [u|msg].
  - destruct (upload_ok (Answer u)) eqn:Hok; destruct Hrest as [Hr ->].
    + split; [intros st; by apply Hcomp|]. split; [done|by intros _].
    + split; [intros st Hst; by destruct (Hnot st)|].
      split; [intros Hst; by destruct (Hnot "Complete")|by intros []].
  - destruct Hrest as [-> ->].
    split; [by intros st (o & ? & _)|]. split; [by intros (o & ? & _)|by intros []].
Qed.

(** X11.  A write that the dataplane answers with a mapping without
    Status, or with a Status other than "Success", ends the invocation
    with the Error failure. *)
Theorem lookup_bad_write_raises_error event :
  let run := lambda_handler py_repr new_helper env event in
  writes run.2 ≠ [] →
  CheckContentModerationStatus.upload_bad (store_reply env) = true →
  failed_with_Error run.1.
Proof.
  intros run Hw Hbad. subst run. unfold lambda_handler in *.
  destruct (new_helper event) as [e|h]; [done|].
  destruct (handle py_repr env event _) as [r s'] eqn:E. cbn [fst snd] in *.
  apply handle_anatomy in E
    as [(_ & Hw' & _)|(b & key & f & v & aid & rest & Hv & Ha & _ & Ht & Hrest)]; [done|].
  destruct (s3_json env (PStr b) (PStr f)) as [msg|[]] eqn:Hdoc;
    try (by destruct Hrest as [_ ?]).
  destruct Hrest as (rest' & -> & Hrest).
  destruct (store_reply env) as [u|msg]; [|done].
  unfold CheckContentModerationStatus.upload_bad in Hbad.
  apply negb_true_iff in Hbad. rewrite Hbad in Hrest.
  by destruct Hrest.
Qed.

(** *** Where the document is looked for *)

Ltac forward :=
  cbv beta iota zeta delta
    [lift mbind M_bind mret M_ret bind ret raise raise_mas try_Exception
     update_workflow_status add_workflow_metadata return_output_object print emit get
     concat get_metadata get_parameters has_media media_location file_type_of
     get_metadata_filename dict_getitem py_getitem py_contains];
  cbn [operator_object trace fst snd].

Lemma get_parameters_video event s v aid inp media obj bucket key :
  event !! "WorkflowExecutionId" = Some v →
  event !! "AssetId" = Some aid →
  input (operator_object s) = PDict inp →
  inp !! "Media" = Some (PDict media) →
  media !! "Video" = Some (PDict obj) →
  obj !! "S3Bucket" = Some bucket →
  obj !! "S3Key" = Some (PStr key) →
  get_parameters py_repr event s =
  (Val (py_str py_repr v, aid, Some (bucket, PStr key)), s).
Proof.
  intros Hv Ha Hi Hm Hvid Hb Hk. forward.
  repeat (first [ rewrite Hv | rewrite Ha | rewrite Hi | rewrite Hm | rewrite Hvid
                | rewrite Hb | rewrite Hk
                | rewrite bool_decide_eq_true_2 by eauto ]; forward).
  done.
Qed.

Lemma get_metadata_filename_default key s cfg :
  configuration (operator_object s) = PDict cfg →
  cfg !! "Filename" = None →
  get_metadata_filename key s = (Val (PStr (default_metadata_filename key)), s).
Proof.
  intros Hc Hf. forward. rewrite Hc. forward. rewrite Hf.
  rewrite bool_decide_eq_false_2 by (by intros []). done.
Qed.

Lemma get_metadata_filename_user key s cfg f :
  configuration (operator_object s) = PDict cfg →
  cfg !! "Filename" = Some f →
  get_metadata_filename key s = (Val f, s).
Proof.
  intros Hc Hf. forward. rewrite Hc. forward. rewrite Hf.
  rewrite bool_decide_eq_true_2 by eauto. done.
Qed.

(** With a bucket, a key and a file name, all strings, the handler gets
    as far as the fetch. *)
Lemma handle_fetches event h w aid b key f :
  (∀ t, get_parameters py_repr event {| operator_object := h; trace := t |} =
        (Val (w, aid, Some (PStr b, PStr key)), {| operator_object := h; trace := t |})) →
  (∀ t, get_metadata_filename key {| operator_object := h; trace := t |} =
        (Val (PStr f), {| operator_object := h; trace := t |})) →
  ∃ rest, trace (handle py_repr env event {| operator_object := h; trace := [] |}).2 =
          [Print ("Looking up metadata for s3://" +:+ b +:+ "/" +:+ key);
           Print (("Getting data from s3://" +:+ b +:+ "/") +:+ f);
           S3GetObject (PStr b) (PStr f)] ++ rest.
Proof.
  intros Hp Hf. unfold handle. run. rewrite Hp. run. rewrite Hf. run.
  destruct (s3_json env (PStr b) (PStr f)) as [msg|doc]; run; [by eexists|].
  destruct doc; run; try by eexists.
  destruct (store_reply env) as [u|msg]; run; [|by eexists].
  destruct (u !! "Status") as [st|]; run; [|by eexists].
  destruct (py_eq_str st "Success"); run; by eexists.
Qed.

(** X12.  The documented naming: for a video at a key [stem.ext], under
    any directory prefix, and no user-defined file name, the handler
    fetches [stem.json] from the root of the video's bucket. *)
Theorem metadata_file_replaces_extension event h v aid inp media obj b cfg prefix stem ext :
  new_helper event = inr h →
  event !! "WorkflowExecutionId" = Some v →
  event !! "AssetId" = Some aid →
  input h = PDict inp →
  inp !! "Media" = Some (PDict media) →
  media !! "Video" = Some (PDict obj) →
  obj !! "S3Bucket" = Some (PStr b) →
  obj !! "S3Key" = Some (PStr (prefix +:+ stem +:+ "." +:+ ext)) →
  prefix = EmptyString ∨ (∃ dir, prefix = dir +:+ "/") →
  occurs "/" stem = false → occurs "/" ext = false → occurs "." ext = false →
  configuration h = PDict cfg →
  cfg !! "Filename" = None →
  In (S3GetObject (PStr b) (PStr (stem +:+ ".json")))
     (lambda_handler py_repr new_helper env event).2.
Proof.
  intros Hh Hv Ha Hi Hm Hvid Hb Hk Hprefix Hstem Hext Hdot Hc Hf.
  unfold lambda_handler. rewrite Hh. cbn [snd].
  destruct (handle_fetches event h (py_str py_repr v) aid b
              (prefix +:+ stem +:+ "." +:+ ext) (stem +:+ ".json")) as [rest ->].
  - intros t. by eapply get_parameters_video.
  - intros t. erewrite get_metadata_filename_default by done.
    by rewrite default_metadata_filename_ext.
  - cbn. auto.
Qed.

(** X13.  A video key without extension makes the handler fetch the key
    [.json]: nothing of the media file name is kept. *)
Theorem metadata_file_without_extension event h v aid inp media obj b cfg prefix name :
  new_helper event = inr h →
  event !! "WorkflowExecutionId" = Some v →
  event !! "AssetId" = Some aid →
  input h = PDict inp →
  inp !! "Media" = Some (PDict media) →
  media !! "Video" = Some (PDict obj) →
  obj !! "S3Bucket" = Some (PStr b) →
  obj !! "S3Key" = Some (PStr (prefix +:+ name)) →
  prefix = EmptyString ∨ (∃ dir, prefix = dir +:+ "/") →
  occurs "/" name = false → occurs "." name = false →
  configuration h = PDict cfg →
  cfg !! "Filename" = None →
  In (S3GetObject (PStr b) (PStr ".json")) (lambda_handler py_repr new_helper env event).2.
Proof.
  intros Hh Hv Ha Hi Hm Hvid Hb Hk Hprefix Hname Hdot Hc Hf.
  unfold lambda_handler. rewrite Hh. cbn [snd].
  destruct (handle_fetches event h (py_str py_repr v) aid b (prefix +:+ name) ".json")
    as [rest ->].
  - intros t. by eapply get_parameters_video.
  - intros t. erewrite get_metadata_filename_default by done.
    by rewrite default_metadata_filename_no_ext.
  - cbn. auto.
Qed.

(** X14.  A user-defined Filename in the configuration is fetched as it
    is, from the video's bucket, whatever the media key. *)
Theorem user_defined_filename_is_fetched event h v aid inp media obj b key cfg f :
  new_helper event = inr h →
  event !! "WorkflowExecutionId" = Some v →
  event !! "AssetId" = Some aid →
  input h = PDict inp →
  inp !! "Media" = Some (PDict media) →
  media !! "Video" = Some (PDict obj) →
  obj !! "S3Bucket" = Some (PStr b) →
  obj !! "S3Key" = Some (PStr key) →
  configuration h = PDict cfg →
  cfg !! "Filename" = Some (PStr f) →
  In (S3GetObject (PStr b) (PStr f)) (lambda_handler py_repr new_helper env event).2.
Proof.
  intros Hh Hv Ha Hi Hm Hvid Hb Hk Hc Hf.
  unfold lambda_handler. rewrite Hh. cbn [snd].
  destruct (handle_fetches event h (py_str py_repr v) aid b key f) as [rest ->].
  - intros t. by eapply get_parameters_video.
  - intros t. by eapply get_metadata_filename_user.
  - cbn. auto.
Qed.

(** X15.  When the Media of the input names none of Video, Audio, Image
    and Text, the handler does not raise the structured failure: [bucket]
    was never bound, line 69 raises UnboundLocalError, and nothing has
    been called. *)
Theorem no_media_type_raises_UnboundLocalError event h v aid inp media :
  new_helper event = inr h →
  event !! "WorkflowExecutionId" = Some v →
  event !! "AssetId" = Some aid →
  input h = PDict inp →
  inp !! "Media" = Some (PDict media) →
  media !! "Video" = None → media !! "Audio" = None →
  media !! "Image" = None → media !! "Text" = None →
  lambda_handler py_repr new_helper env event = (Raise (UnboundLocalError "bucket"), []).
Proof.
  intros Hh Hv Ha Hi Hm H1 H2 H3 H4.
  unfold lambda_handler. rewrite Hh. unfold handle. forward.
  repeat (first [ rewrite Hv | rewrite Ha | rewrite Hi | rewrite Hm
                | rewrite H1 | rewrite H2 | rewrite H3 | rewrite H4
                | rewrite bool_decide_eq_false_2 by (by intros []) ]; forward).
  done.
Qed.

(** X16.  Without WorkflowExecutionId or AssetId in the event, or
    without a Media entry in the input, the handler raises the Error
    failure with the message "No valid inputs", and nothing has been
    called. *)
Theorem invalid_inputs_are_reported event h :
  new_helper event = inr h →
  event !! "WorkflowExecutionId" = None ∨
  event !! "AssetId" = None ∨
  (∀ m, py_getitem (input h) "Media" ≠ inr m) →
  let run := lambda_handler py_repr new_helper env event in
  (∃ o, run.1 = Raise (MasExecutionError o) ∧
        Status_of o = Some (PStr "Error") ∧
        MetaData_of o "GenericDataLookupError" = Some (PStr "No valid inputs")) ∧
  run.2 = [].
Proof.
  intros Hh Hbad run. subst run.
  unfold lambda_handler. rewrite Hh. unfold handle.
  assert (∀ h', status (base h') = PStr "Error" →
                metadata (base h') !! "GenericDataLookupError" = Some (PStr "No valid inputs") →
                ∃ o, @Raise dict (MasExecutionError (operation_output h')) =
                     Raise (MasExecutionError o) ∧
                     Status_of o = Some (PStr "Error") ∧
                     MetaData_of o "GenericDataLookupError" = Some (PStr "No valid inputs"))
    as Hout.
  { intros h' Hs Hm. eexists. split; [done|].
    rewrite Status_of_operation, Hs. split; [done|].
    unfold MetaData_of, operation_output, output_dict. by simplify_map_eq. }
  cbv beta iota zeta delta
    [lift mbind M_bind mret M_ret bind ret raise raise_mas try_Exception
     update_workflow_status add_workflow_metadata return_output_object print emit get
     get_parameters has_media dict_getitem];
  cbn [operator_object trace fst snd].
  destruct (event !! "WorkflowExecutionId") as [v|] eqn:Hv; cbn [fst snd];
    [|split; [apply Hout; [done|apply lookup_insert_eq]|done]].
  destruct (event !! "AssetId") as [aid|] eqn:Ha; cbn [fst snd];
    [|split; [apply Hout; [done|apply lookup_insert_eq]|done]].
  destruct Hbad as [?|[?|Hbad]]; [done..|]. cbn [operator_object fst snd].
  destruct (py_getitem (input h) "Media") as [e|m] eqn:Hm; [|by destruct (Hbad m)].
  cbn [fst snd]. split; [apply Hout; [done|apply lookup_insert_eq]|done].
Qed.

End Run.

(** *** The theorems at concrete events *)

Import Scenarios MoreScenarios.

Lemma stored_document_witness :
  ∃ h b f d v aid,
    helper_of video_event = inr h ∧
    video_event !! "WorkflowExecutionId" = Some v ∧
    video_event !! "AssetId" = Some aid ∧
    In (S3GetObject (PStr b) (PStr f))
       (lambda_handler plain_repr helper_of dict_document video_event).2 ∧
    s3_json dict_document (PStr b) (PStr f) = inr (PDict d) ∧
    StoreAssetMetadata (PStr "asset-1") (PStr "GenericDataLookup") (PStr "wf-1")
      (PDict labels) None None =
    StoreAssetMetadata aid (name (base h)) (PStr (py_str plain_repr v)) (PDict d) None None ∧
    writes (lambda_handler plain_repr helper_of dict_document video_event).2 =
    [StoreAssetMetadata (PStr "asset-1") (PStr "GenericDataLookup") (PStr "wf-1")
       (PDict labels) None None].
Proof.
  apply (stored_document_is_the_fetched_one plain_repr helper_of dict_document video_event).
  vm_compute. left. reflexivity.
Defined.

Lemma lookup_bad_write_witness :
  failed_with_Error (lambda_handler plain_repr helper_of dict_document_not_stored video_event).1.
Proof.
  apply (lookup_bad_write_raises_error plain_repr helper_of dict_document_not_stored
           video_event).
  - vm_compute. discriminate.
  - reflexivity.
Defined.

Lemma metadata_file_witness :
  In (S3GetObject (PStr "dataplane") (PStr "Demo Video 01.json"))
     (lambda_handler plain_repr helper_of dict_document
        (video_at "upload/clips/Demo Video 01.mp4" ∅)).2.
Proof.
  eapply (metadata_file_replaces_extension plain_repr helper_of dict_document
            (video_at "upload/clips/Demo Video 01.mp4" ∅))
    with (b := "dataplane") (prefix := "upload/clips/") (stem := "Demo Video 01")
         (ext := "mp4").
  - reflexivity.
  - reflexivity.
  - reflexivity.
  - reflexivity.
  - reflexivity.
  - reflexivity.
  - reflexivity.
  - reflexivity.
  - right. exists "upload/clips". reflexivity.
  - reflexivity.
  - reflexivity.
  - reflexivity.
  - reflexivity.
  - reflexivity.
Defined.

Lemma metadata_file_without_extension_witness :
  In (S3GetObject (PStr "dataplane") (PStr ".json"))
     (lambda_handler plain_repr helper_of dict_document (video_at "upload/trailer" ∅)).2.
Proof.
  eapply (metadata_file_without_extension plain_repr helper_of dict_document
            (video_at "upload/trailer" ∅))
    with (b := "dataplane") (prefix := "upload/") (name := "trailer").
  - reflexivity.
  - reflexivity.
  - reflexivity.
  - reflexivity.
  - reflexivity.
  - reflexivity.
  - reflexivity.
  - reflexivity.
  - right. exists "upload". reflexivity.
  - reflexivity.
  - reflexivity.
  - reflexivity.
  - reflexivity.
Defined.

Lemma user_defined_filename_witness :
  In (S3GetObject (PStr "dataplane") (PStr "My Video.json"))
     (lambda_handler plain_repr helper_of dict_document
        (video_at "Demo Video 01.mp4" {[ "Filename" := PStr "My Video.json" ]})).2.
Proof.
  eapply (user_defined_filename_is_fetched plain_repr helper_of dict_document
            (video_at "Demo Video 01.mp4" {[ "Filename" := PStr "My Video.json" ]}))
    with (b := "dataplane") (f := "My Video.json").
  - reflexivity.
  - reflexivity.
  - reflexivity.
  - reflexivity.
  - reflexivity.
  - reflexivity.
  - reflexivity.
  - reflexivity.
  - reflexivity.
  - reflexivity.
Defined.

Lemma no_media_type_witness :
  lambda_handler plain_repr helper_of dict_document no_media_event =
  (Raise (UnboundLocalError "bucket"), []).
Proof.
  eapply (no_media_type_raises_UnboundLocalError plain_repr helper_of dict_document
            no_media_event).
  - reflexivity.
  - reflexivity.
  - reflexivity.
  - reflexivity.
  - reflexivity.
  - reflexivity.
  - reflexivity.
  - reflexivity.
  - reflexivity.
Defined.

Lemma invalid_inputs_witness :
  let run := lambda_handler plain_repr helper_of dict_document no_asset_event in
  (∃ o, run.1 = Raise (MasExecutionError o) ∧
        Status_of o = Some (PStr "Error") ∧
        MetaData_of o "GenericDataLookupError" = Some (PStr "No valid inputs")) ∧
  run.2 = [].
Proof.
  eapply (invalid_inputs_are_reported plain_repr helper_of dict_document no_asset_event).
  - reflexivity.
  - right. left. reflexivity.
Defined.

End DataLookupMore.

(** * Properties of the anonymous data logger *)

Module DataLogger.
Import AnonymousDataLogger.

Lemma statuses_snoc t e :
  statuses (t ++ [e]) = statuses t ++ (match status_of e with Some st => [st] | None => [] end).
Proof. unfold statuses. rewrite omap_app. cbn. by destruct (status_of e). Qed.

Lemma metrics_snoc t e :
  metrics (t ++ [e]) =
  metrics t ++ (match e with SendMetrics c => [c] | _ => [] end).
Proof. unfold metrics. rewrite omap_app. cbn. by destruct e. Qed.

Lemma sends_nil : sends [] = [].
Proof. done. Qed.

Lemma sends_app t1 t2 : sends (t1 ++ t2) = sends t1 ++ sends t2.
Proof. apply filter_app. Qed.

Lemma sends_cons e t :
  sends (e :: t) = if is_send e then e :: sends t else sends t.
Proof. unfold sends. rewrite filter_cons. destruct e; cbn; by case_decide. Qed.

Section Run.

Context (py_repr : pyval → string) (env : world) (log_stream_name : pyval).

Abbreviation handler := (handler py_repr env log_stream_name).
Abbreviation dispatch := (dispatch py_repr env log_stream_name).
Abbreviation report := (report py_repr env log_stream_name).

(** The first line the handler prints. *)
Abbreviation greeting ev :=
  (Log ("We got this event:" +:+ newline +:+ " " +:+ py_str py_repr (PDict ev))).

Ltac run :=
  cbv beta iota zeta delta
    [lift mbind M_bind mret M_ret bind ret raise try_Exception
     emit print get_event set_event get_config set_config config_pop config_setitem
     external cfn_send send_metrics new_uuid dict_getitem invocation];
  cbn [event trace fst snd app].

Ltac run_in H :=
  cbv beta iota zeta delta
    [lift mbind M_bind mret M_ret bind ret raise try_Exception
     emit print get_event set_event get_config set_config config_pop config_setitem
     external cfn_send send_metrics new_uuid dict_getitem invocation] in H;
  cbn [event trace fst snd app] in H.

(** *** The first part of the handler (lines 30-44) *)

Lemma handler_no_request ev :
  ev !! "RequestType" = None →
  handler (invocation ev) =
  report (KeyError "RequestType") {| event := ev; trace := [greeting ev] |}.
Proof. intros H. unfold AnonymousDataLogger.handler. run. by rewrite H. Qed.

Lemma handler_no_properties ev rq :
  ev !! "RequestType" = Some rq →
  ev !! "ResourceProperties" = None →
  handler (invocation ev) =
  report (KeyError "ResourceProperties") {| event := ev; trace := [greeting ev] |}.
Proof. intros H1 H2. unfold AnonymousDataLogger.handler. run. by rewrite H1, H2. Qed.

Lemma handler_no_resource ev rq v e :
  ev !! "RequestType" = Some rq →
  ev !! "ResourceProperties" = Some v →
  py_getitem v "Resource" = inl e →
  handler (invocation ev) = report e {| event := ev; trace := [greeting ev] |}.
Proof.
  intros H1 H2 H3. unfold AnonymousDataLogger.handler. run. by rewrite H1, H2, H3.
Qed.

Lemma handler_bad_request_type ev rq properties rs e :
  ev !! "RequestType" = Some rq →
  ev !! "ResourceProperties" = Some (PDict properties) →
  properties !! "Resource" = Some rs →
  py_add_str rq "d" = inl e →
  handler (invocation ev) =
  report e
    {| event := <["ResourceProperties" :=
                    PDict (delete "Resource" (delete "ServiceToken" properties))]> ev;
       trace := [greeting ev] |}.
Proof.
  intros H1 H2 H3 H4. unfold AnonymousDataLogger.handler. run.
  repeat (first [ rewrite H1 | rewrite H2 | rewrite H3 | rewrite H4
                | rewrite lookup_insert_eq | rewrite lookup_insert_ne by done ];
          cbn [py_getitem]; run).
  by rewrite insert_insert_eq.
Qed.

Lemma handler_dispatches ev t properties rs :
  ev !! "RequestType" = Some (PStr t) →
  ev !! "ResourceProperties" = Some (PDict properties) →
  properties !! "Resource" = Some rs →
  handler (invocation ev) =
  try_Exception (dispatch (PStr t) rs) report
    {| event := scrubbed_event (t +:+ "d") properties ev;
       trace := [greeting ev;
                 Log ("Request::" +:+ t +:+ " Resource:: " +:+ py_str py_repr rs)] |}.
Proof.
  intros H1 H2 H3. unfold AnonymousDataLogger.handler. run.
  repeat (first [ rewrite H1 | rewrite H2 | rewrite H3
                | rewrite lookup_insert_eq | rewrite lookup_insert_ne by done ];
          cbn [py_getitem py_add_str py_str]; run).
  by rewrite !insert_insert_eq.
Qed.

(** *** The branch and the except clause *)

Ltac cases_in H :=
  run_in H;
  repeat (case_match; simplify_eq; run_in H).

Ltac tidy :=
  cbn [event trace fst snd];
  rewrite ?statuses_snoc, ?metrics_snoc; cbn [status_of]; rewrite ?app_nil_r.

(** The except clause sends one FAILED response, on the event as it is,
    and ends normally unless that very call raises. *)
Lemma report_effects e s r s' :
  report e s = (r, s') →
  event s' = event s ∧
  statuses (trace s') = statuses (trace s) ++ ["FAILED"] ∧
  metrics (trace s') = metrics (trace s) ∧
  (r = Val tt ∨ ∃ msg, r = Raise (ExternalError msg)) ∧
  In (CfnSend (event s) "FAILED" ∅ (Some log_stream_name)) (trace s').
Proof.
  intros H. unfold AnonymousDataLogger.report in H. cases_in H.
  all: tidy; repeat split; eauto.
  all: rewrite !in_app_iff; cbn; auto.
Qed.

(** The branch leaves the event alone, sends at most one response
    before it ends (a FAILED one only on its way to an exception), and
    hands the metrics API nothing but the resource properties of the
    event, on a Create request. *)
Lemma dispatch_effects rq rs s r s' :
  dispatch rq rs s = (r, s') →
  event s' = event s ∧
  (∃ new, statuses (trace s') = statuses (trace s) ++ new ∧
          match r with
          | Val _ => new = [] ∨ new = ["SUCCESS"]
          | Raise _ => new = [] ∨ new = ["SUCCESS"] ∨ new = ["FAILED"]
          | OutOfFuel => False
          end) ∧
  (∀ c, In c (metrics (trace s')) →
        In c (metrics (trace s)) ∨
        (rq = PStr "Create" ∧ event s !! "ResourceProperties" = Some (PDict c))).
Proof.
  intros H. unfold AnonymousDataLogger.dispatch in H. cases_in H.
  all: tidy; split; [done|]; split.
  all: try (first [ exists []; split; [by rewrite app_nil_r|]
                  | eexists; split; [reflexivity|] ]; cbn; by auto).
  all: intros c; rewrite ?in_app_iff; cbn [In].
  all: try tauto.
  all: intros [?|[<-|[]]]; [by left|right]; split; [|done].
  all: match goal with E : py_eq_str ?v "Create" = true |- _ =>
         by apply PollAdapter.py_eq_str_true in E end.
Qed.

(** *** The handler as a whole *)

Abbreviation ready t properties rs ev :=
  {| event := scrubbed_event (t +:+ "d") properties ev;
     trace := [greeting ev;
               Log ("Request::" +:+ t +:+ " Resource:: " +:+ py_str py_repr rs)] |}.

(** Either the first part fails, and the except clause takes over
    before anything was sent, or the handler reaches the branch with the
    event scrubbed. *)
Lemma handler_shape ev :
  (∃ e s0, handler (invocation ev) = report e s0 ∧
           statuses (trace s0) = [] ∧ metrics (trace s0) = []) ∨
  (∃ t properties rs,
     ev !! "RequestType" = Some (PStr t) ∧
     ev !! "ResourceProperties" = Some (PDict properties) ∧
     properties !! "Resource" = Some rs ∧
     handler (invocation ev) =
     try_Exception (dispatch (PStr t) rs) report (ready t properties rs ev)).
Proof.
  destruct (ev !! "RequestType") as [rq|] eqn:H1.
  2: { left. eexists _, _. split; [by apply handler_no_request|done]. }
  destruct (ev !! "ResourceProperties") as [v|] eqn:H2.
  2: { left. eexists _, _. split; [by eapply handler_no_properties|done]. }
  destruct (py_getitem v "Resource") as [e|rs] eqn:H3.
  { left. eexists _, _. split; [by eapply handler_no_resource|done]. }
  destruct v; try discriminate H3.
  unfold py_getitem, dict_getitem in H3.
  destruct (d !! "Resource") as [rs'|] eqn:H3'; [|done]. injection H3 as ->.
  destruct (py_add_str rq "d") as [e|tpl] eqn:H4.
  { left. eexists _, _. split; [by eapply handler_bad_request_type|done]. }
  destruct rq; try discriminate H4.
  right. exists s, d, rs. repeat split; try done. by apply handler_dispatches.
Qed.

Lemma scrubbed_lookup template properties ev :
  scrubbed_event template properties ev !! "ResourceProperties" =
  Some (PDict (scrubbed template properties)).
Proof. apply lookup_insert_eq. Qed.

(** X17.  Whatever the handler hands to the metrics API is the resource
    properties of a Create event without ServiceToken and Resource and
    with CFTemplate "Created": the Lambda ARN, and with it the account
    id, never leaves. *)
Theorem metrics_never_carry_the_service_token ev c :
  In c (metrics (trace (handler (invocation ev)).2)) →
  ∃ properties,
    ev !! "RequestType" = Some (PStr "Create") ∧
    ev !! "ResourceProperties" = Some (PDict properties) ∧
    c = scrubbed "Created" properties ∧
    c !! "ServiceToken" = None ∧
    c !! "Resource" = None ∧
    c !! "CFTemplate" = Some (PStr "Created").
Proof.
  destruct (handler_shape ev) as [(e & s0 & -> & _ & Hm)|(t & props & rs & H1 & H2 & H3 & ->)].
  { destruct (report e s0) as [r s'] eqn:E. cbn [snd].
    apply report_effects in E as (_ & _ & -> & _). rewrite Hm. by intros []. }
  unfold try_Exception.
  destruct (dispatch (PStr t) rs _) as [[[]|e|] s2] eqn:D;
    pose proof (dispatch_effects _ _ _ _ _ D) as (Hev & _ & Hmet).
  2: { destruct (report e s2) as [r s'] eqn:E. cbn [snd].
       apply report_effects in E as (_ & _ & -> & _). revert c Hmet. generalize s2.
       intros s3 c Hmet Hc. revert c Hc Hmet. cbn [snd]. intros c Hc Hmet.
       destruct (Hmet c Hc) as [[]|[Ht Hl]]. cbn [event] in Hl.
       rewrite scrubbed_lookup in Hl. injection Ht as ->. injection Hl as <-.
       exists props. repeat split; try done; unfold scrubbed; by simplify_map_eq. }
  all: cbn [snd]; intros Hc; destruct (Hmet c Hc) as [[]|[Ht Hl]]; cbn [event] in Hl;
       rewrite scrubbed_lookup in Hl; injection Ht as ->; injection Hl as <-;
       exists props; repeat split; try done; unfold scrubbed; by simplify_map_eq.
Qed.

(** X18.  The handler sends CloudFormation at most two responses, and
    never SUCCESS after FAILED: none, one SUCCESS, one FAILED, a SUCCESS
    whose sending raised followed by FAILED, or two FAILED. *)
Theorem responses_are_never_success_after_failed ev :
  let sent := statuses (trace (handler (invocation ev)).2) in
  sent = [] ∨ sent = ["SUCCESS"] ∨ sent = ["FAILED"] ∨
  sent = ["SUCCESS"; "FAILED"] ∨ sent = ["FAILED"; "FAILED"].
Proof.
  intros sent. subst sent.
  destruct (handler_shape ev) as [(e & s0 & -> & Hs & _)|(t & props & rs & H1 & H2 & H3 & ->)].
  { destruct (report e s0) as [r s'] eqn:E. cbn [snd].
    apply report_effects in E as (_ & -> & _). rewrite Hs. auto. }
  unfold try_Exception.
  destruct (dispatch (PStr t) rs _) as [[[]|e|] s2] eqn:D;
    pose proof (dispatch_effects _ _ _ _ _ D) as (_ & (new & Hst & Hnew) & _);
    cbn [trace statuses omap list_omap status_of app] in Hst; [| |done].
  - cbn [snd]. rewrite Hst. destruct Hnew as [->| ->]; auto.
  - destruct (report e s2) as [r s'] eqn:E. cbn [snd].
    apply report_effects in E as (_ & -> & _). rewrite Hst.
    destruct Hnew as [->|[->| ->]]; cbn; auto 6.
Qed.

(** The except clause ends as its [cfn.send] does: with the exception
    of that call, or normally. *)
Lemma report_outcome e s r s' :
  report e s = (r, s') →
  r = match cfn_send_raises env (length (sends (trace s))) with
      | Some msg => Raise (ExternalError msg)
      | None => Val tt
      end ∧
  sends (trace s') =
    sends (trace s) ++ [CfnSend (event s) "FAILED" ∅ (Some log_stream_name)].
Proof.
  intros H. unfold AnonymousDataLogger.report in H. run_in H.
  rewrite sends_app, sends_cons, sends_nil, app_nil_r in H. cbn [is_send] in H.
  destruct (cfn_send_raises env (length (sends (trace s)))) as [msg|];
    run_in H; simplify_eq; cbn [trace].
  all: rewrite ?sends_app, !sends_cons, sends_nil; cbn [is_send].
  all: by rewrite ?app_nil_r.
Qed.

(** X19.  The handler swallows every exception but one: it raises
    exactly when the last response it attempted is FAILED and the
    sending of it raised, and then it ends with the exception of that
    very call.  FAILED comes last only from the except clause of lines
    70-73, so an exception of the lookups, of the metrics API or of a
    SUCCESS response never leaves the handler, and the handler ends
    normally whenever the [cfn.send] of the except clause does. *)
Theorem only_a_failed_response_can_raise ev :
  let run := handler (invocation ev) in
  run.1 =
    if bool_decide (last (statuses (trace run.2)) = Some "FAILED")
    then match cfn_send_raises env (length (sends (trace run.2)) - 1) with
         | Some msg => Raise (ExternalError msg)
         | None => Val tt
         end
    else Val tt.
Proof.
  intros run. subst run.
  assert (∀ e s0 r s', report e s0 = (r, s') →
            r = if bool_decide (last (statuses (trace s')) = Some "FAILED")
                then match cfn_send_raises env (length (sends (trace s')) - 1) with
                     | Some msg => Raise (ExternalError msg)
                     | None => Val tt
                     end
                else Val tt) as Hrep.
  { intros e s0 r s' E.
    pose proof (report_effects _ _ _ _ E) as (_ & Hst & _).
    apply report_outcome in E as [-> Hs].
    rewrite Hst, last_snoc, bool_decide_eq_true_2 by done.
    rewrite Hs, length_app. cbn [length].
    by replace (length (sends (trace s0)) + 1 - 1) with (length (sends (trace s0))) by lia. }
  destruct (handler_shape ev) as [(e & s0 & -> & _ & _)|(t & props & rs & H1 & H2 & H3 & ->)].
  { destruct (report e s0) as [r s'] eqn:E. cbn [fst snd]. by eapply Hrep. }
  unfold try_Exception.
  destruct (dispatch (PStr t) rs _) as [[[]|e|] s2] eqn:D.
  - apply dispatch_effects in D as (_ & (new & Hst & Hnew) & _).
    cbn [fst snd]. rewrite Hst.
    cbn [trace statuses omap list_omap status_of app].
    by destruct Hnew as [->| ->].
  - destruct (report e s2) as [r s'] eqn:E. cbn [fst snd]. by eapply Hrep.
  - by apply dispatch_effects in D as (_ & (new & _ & []) & _).
Qed.

(** *** The handler on each kind of request *)

Lemma py_eq_str_refl s : py_eq_str (PStr s) s = true.
Proof. cbn. by apply bool_decide_eq_true_2. Qed.

Lemma py_eq_str_ne s1 s2 : s1 ≠ s2 → py_eq_str (PStr s1) s2 = false.
Proof. intros. cbn. by apply bool_decide_eq_false_2. Qed.

Ltac enter H1 H2 H3 :=
  rewrite (handler_dispatches _ _ _ _ H1 H2 H3);
  unfold try_Exception, AnonymousDataLogger.dispatch, AnonymousDataLogger.report.

Ltac count_sends :=
  rewrite ?sends_cons, ?sends_nil; cbn [is_send length].

(** X20.  A Create request for the resource UUID is answered SUCCESS,
    once, with the UUID that [uuid4] drew as response data and as
    physical resource id; the event handed to CloudFormation is the
    scrubbed one, and the metrics API is not called. *)
Theorem create_uuid_answers_with_the_uuid ev properties :
  ev !! "RequestType" = Some (PStr "Create") →
  ev !! "ResourceProperties" = Some (PDict properties) →
  properties !! "Resource" = Some (PStr "UUID") →
  cfn_send_raises env 0 = None →
  let run := handler (invocation ev) in
  run.1 = Val tt ∧
  sends (trace run.2) =
    [CfnSend (scrubbed_event "Created" properties ev) "SUCCESS"
       {[ "UUID" := PStr (uuid4 env) ]} (Some (PStr (uuid4 env)))] ∧
  metrics (trace run.2) = [].
Proof.
  intros H1 H2 H3 Hc run. subst run. enter H1 H2 H3.
  rewrite !py_eq_str_refl. run. count_sends. rewrite Hc. run. by count_sends.
Qed.


(** X21.  A Create request for the resource AnonymousMetric hands the
    metrics API the scrubbed resource properties, once, and then answers
    SUCCESS with the physical resource id "Metrics Sent". *)
Theorem create_metric_sends_scrubbed_properties ev properties :
  ev !! "RequestType" = Some (PStr "Create") →
  ev !! "ResourceProperties" = Some (PDict properties) →
  properties !! "Resource" = Some (PStr "AnonymousMetric") →
  send_metrics_raises env = None →
  cfn_send_raises env 0 = None →
  let run := handler (invocation ev) in
  run.1 = Val tt ∧
  metrics (trace run.2) = [scrubbed "Created" properties] ∧
  sends (trace run.2) =
    [CfnSend (scrubbed_event "Created" properties ev) "SUCCESS" ∅
       (Some (PStr "Metrics Sent"))].
Proof.
  intros H1 H2 H3 Hm Hc run. subst run. enter H1 H2 H3.
  rewrite py_eq_str_refl, (py_eq_str_ne "AnonymousMetric" "UUID") by done.
  rewrite py_eq_str_refl. run. rewrite scrubbed_lookup. run. rewrite Hm. run.
  count_sends. rewrite Hc. run. by count_sends.
Qed.

(** X22.  When the metrics API raises, the handler answers FAILED,
    once, and never SUCCESS; the message of the exception is printed.
    The call of the metrics API was made, with the scrubbed
    properties. *)
Theorem metrics_outage_is_answered_failed ev properties msg :
  ev !! "RequestType" = Some (PStr "Create") →
  ev !! "ResourceProperties" = Some (PDict properties) →
  properties !! "Resource" = Some (PStr "AnonymousMetric") →
  send_metrics_raises env = Some msg →
  let run := handler (invocation ev) in
  sends (trace run.2) =
    [CfnSend (scrubbed_event "Created" properties ev) "FAILED" ∅
       (Some log_stream_name)] ∧
  metrics (trace run.2) = [scrubbed "Created" properties] ∧
  In (Log ("Exception: " +:+ msg)) (trace run.2).
Proof.
  intros H1 H2 H3 Hm run. subst run. enter H1 H2 H3.
  rewrite py_eq_str_refl, (py_eq_str_ne "AnonymousMetric" "UUID") by done.
  rewrite py_eq_str_refl. run. rewrite scrubbed_lookup. run. rewrite Hm. run.
  count_sends. destruct (cfn_send_raises env 0); run; count_sends.
  all: split; [done|]; split; [done|]; cbn; tauto.
Qed.

(** X23.  A Create request for a resource that is neither UUID nor
    AnonymousMetric is answered FAILED twice and never SUCCESS, whatever
    the environment does: after the FAILED response of line 57 the
    handler goes on to line 59, where [id] is unbound, and the except
    clause answers FAILED again.  The metrics API is not called. *)
Theorem create_unknown_resource_is_answered_failed_twice ev properties rs :
  ev !! "RequestType" = Some (PStr "Create") →
  ev !! "ResourceProperties" = Some (PDict properties) →
  properties !! "Resource" = Some rs →
  rs ≠ PStr "UUID" → rs ≠ PStr "AnonymousMetric" →
  let run := handler (invocation ev) in
  let failed := CfnSend (scrubbed_event "Created" properties ev) "FAILED" ∅
                  (Some log_stream_name) in
  sends (trace run.2) = [failed; failed] ∧
  metrics (trace run.2) = [] ∧
  (cfn_send_raises env 0 = None →
   In (Log "Exception: local variable 'id' referenced before assignment")
      (trace run.2)).
Proof.
  intros H1 H2 H3 Hu Ha run failed. subst run failed. enter H1 H2 H3.
  rewrite py_eq_str_refl.
  destruct (py_eq_str rs "UUID") eqn:E1; [by apply PollAdapter.py_eq_str_true in E1|].
  destruct (py_eq_str rs "AnonymousMetric") eqn:E2; [by apply PollAdapter.py_eq_str_true in E2|].
  run. count_sends.
  destruct (cfn_send_raises env 0); run; count_sends.
  all: destruct (cfn_send_raises env 1); run; count_sends.
  all: split; [done|]; split; [done|]; try discriminate; intros _; cbn; tauto.
Qed.

(** X24.  A Delete request is answered SUCCESS with empty response data
    and without a physical resource id, whatever the resource is; no
    UUID is drawn and the metrics API is not called. *)
Theorem delete_is_answered_success ev properties rs :
  ev !! "RequestType" = Some (PStr "Delete") →
  ev !! "ResourceProperties" = Some (PDict properties) →
  properties !! "Resource" = Some rs →
  cfn_send_raises env 0 = None →
  let run := handler (invocation ev) in
  run.1 = Val tt ∧
  sends (trace run.2) =
    [CfnSend (scrubbed_event "Deleted" properties ev) "SUCCESS" ∅ None] ∧
  metrics (trace run.2) = [] ∧
  ¬ In Uuid4 (trace run.2).
Proof.
  intros H1 H2 H3 Hc run. subst run. enter H1 H2 H3.
  rewrite (py_eq_str_ne "Delete" "Create") by done. rewrite py_eq_str_refl.
  run. count_sends. rewrite Hc. run. count_sends.
  split; [done|]; split; [done|]; split; [done|]. cbn. by intros [|[|[|[]]]].
Qed.

(** X25.  A request that is neither Create nor Delete (an Update,
    say) gets no response at all: the handler prints that the request is
    not supported and returns, having changed the event. *)
Theorem unsupported_request_gets_no_response ev t properties rs :
  ev !! "RequestType" = Some (PStr t) →
  ev !! "ResourceProperties" = Some (PDict properties) →
  properties !! "Resource" = Some rs →
  t ≠ "Create" → t ≠ "Delete" →
  let run := handler (invocation ev) in
  run.1 = Val tt ∧
  sends (trace run.2) = [] ∧
  metrics (trace run.2) = [] ∧
  event run.2 = scrubbed_event (t +:+ "d") properties ev ∧
  last (trace run.2) = Some (Log ("RESPONSE:: " +:+ t +:+ " Not supported")).
Proof.
  intros H1 H2 H3 Hc Hd run. subst run. enter H1 H2 H3.
  rewrite !py_eq_str_ne by done. run. by count_sends.
Qed.

(** X26.  An event without RequestType, without ResourceProperties or
    whose resource properties have no Resource is answered FAILED, once,
    with the event unchanged (ServiceToken included) and the log stream
    name as physical resource id. *)
Theorem incomplete_event_is_answered_failed ev :
  ev !! "RequestType" = None ∨
  ev !! "ResourceProperties" = None ∨
  (∃ properties, ev !! "ResourceProperties" = Some (PDict properties) ∧
                 properties !! "Resource" = None) →
  let run := handler (invocation ev) in
  sends (trace run.2) = [CfnSend ev "FAILED" ∅ (Some log_stream_name)] ∧
  metrics (trace run.2) = [] ∧
  event run.2 = ev.
Proof.
  intros H run. subst run.
  assert (∃ e, handler (invocation ev) =
               report e {| event := ev; trace := [greeting ev] |}) as [e ->].
  { destruct (ev !! "RequestType") as [rq|] eqn:H1.
    2: { eexists. by apply handler_no_request. }
    destruct H as [?|[H2|(props & H2 & H3)]]; [done| |].
    - eexists. by eapply handler_no_properties.
    - eexists. eapply handler_no_resource; [done..|].
      cbn. unfold dict_getitem. by rewrite H3. }
  unfold AnonymousDataLogger.report. run. count_sends.
  destruct (cfn_send_raises env 0); run; by count_sends.
Qed.

End Run.

(** *** The theorems at concrete events *)

Import Scenarios LoggerScenarios.

Lemma metrics_witness :
  ∃ properties,
    request "Create" "AnonymousMetric" !! "RequestType" = Some (PStr "Create") ∧
    request "Create" "AnonymousMetric" !! "ResourceProperties" = Some (PDict properties) ∧
    scrubbed "Created" (LoggerScenarios.properties "AnonymousMetric") =
      scrubbed "Created" properties ∧
    scrubbed "Created" (LoggerScenarios.properties "AnonymousMetric") !! "ServiceToken" = None ∧
    scrubbed "Created" (LoggerScenarios.properties "AnonymousMetric") !! "Resource" = None ∧
    scrubbed "Created" (LoggerScenarios.properties "AnonymousMetric") !! "CFTemplate" =
      Some (PStr "Created").
Proof.
  apply (metrics_never_carry_the_service_token plain_repr calm log_stream
           (request "Create" "AnonymousMetric")
           (scrubbed "Created" (LoggerScenarios.properties "AnonymousMetric"))).
  vm_compute. left. reflexivity.
Defined.

Lemma create_uuid_witness :
  (run calm (request "Create" "UUID")).1 = Val tt ∧
  sends (trace (run calm (request "Create" "UUID")).2) =
    [CfnSend (scrubbed_event "Created" (LoggerScenarios.properties "UUID")
                (request "Create" "UUID")) "SUCCESS"
       {[ "UUID" := PStr (uuid4 calm) ]} (Some (PStr (uuid4 calm)))] ∧
  metrics (trace (run calm (request "Create" "UUID")).2) = [].
Proof.
  apply (create_uuid_answers_with_the_uuid plain_repr calm log_stream
           (request "Create" "UUID") (LoggerScenarios.properties "UUID")).
  - reflexivity.
  - reflexivity.
  - reflexivity.
  - reflexivity.
Defined.

Lemma create_metric_witness :
  (run calm (request "Create" "AnonymousMetric")).1 = Val tt ∧
  metrics (trace (run calm (request "Create" "AnonymousMetric")).2) =
    [scrubbed "Created" (LoggerScenarios.properties "AnonymousMetric")] ∧
  sends (trace (run calm (request "Create" "AnonymousMetric")).2) =
    [CfnSend (scrubbed_event "Created" (LoggerScenarios.properties "AnonymousMetric")
                (request "Create" "AnonymousMetric")) "SUCCESS" ∅
       (Some (PStr "Metrics Sent"))].
Proof.
  apply (create_metric_sends_scrubbed_properties plain_repr calm log_stream
           (request "Create" "AnonymousMetric")
           (LoggerScenarios.properties "AnonymousMetric")).
  - reflexivity.
  - reflexivity.
  - reflexivity.
  - reflexivity.
  - reflexivity.
Defined.

Lemma metrics_outage_witness :
  sends (trace (run unreachable (request "Create" "AnonymousMetric")).2) =
    [CfnSend (scrubbed_event "Created" (LoggerScenarios.properties "AnonymousMetric")
                (request "Create" "AnonymousMetric")) "FAILED" ∅ (Some log_stream)] ∧
  metrics (trace (run unreachable (request "Create" "AnonymousMetric")).2) =
    [scrubbed "Created" (LoggerScenarios.properties "AnonymousMetric")] ∧
  In (Log "Exception: connection timed out")
     (trace (run unreachable (request "Create" "AnonymousMetric")).2).
Proof.
  apply (metrics_outage_is_answered_failed plain_repr unreachable log_stream
           (request "Create" "AnonymousMetric")
           (LoggerScenarios.properties "AnonymousMetric") "connection timed out").
  - reflexivity.
  - reflexivity.
  - reflexivity.
  - reflexivity.
Defined.

Lemma create_unknown_resource_witness :
  sends (trace (run calm (request "Create" "Bucket")).2) =
    [CfnSend (scrubbed_event "Created" (LoggerScenarios.properties "Bucket")
                (request "Create" "Bucket")) "FAILED" ∅ (Some log_stream);
     CfnSend (scrubbed_event "Created" (LoggerScenarios.properties "Bucket")
                (request "Create" "Bucket")) "FAILED" ∅ (Some log_stream)] ∧
  metrics (trace (run calm (request "Create" "Bucket")).2) = [] ∧
  (cfn_send_raises calm 0 = None →
   In (Log "Exception: local variable 'id' referenced before assignment")
      (trace (run calm (request "Create" "Bucket")).2)).
Proof.
  apply (create_unknown_resource_is_answered_failed_twice plain_repr calm log_stream
           (request "Create" "Bucket") (LoggerScenarios.properties "Bucket")
           (PStr "Bucket")).
  - reflexivity.
  - reflexivity.
  - reflexivity.
  - discriminate.
  - discriminate.
Defined.

Lemma delete_witness :
  (run calm (request "Delete" "UUID")).1 = Val tt ∧
  sends (trace (run calm (request "Delete" "UUID")).2) =
    [CfnSend (scrubbed_event "Deleted" (LoggerScenarios.properties "UUID")
                (request "Delete" "UUID")) "SUCCESS" ∅ None] ∧
  metrics (trace (run calm (request "Delete" "UUID")).2) = [] ∧
  ¬ In Uuid4 (trace (run calm (request "Delete" "UUID")).2).
Proof.
  apply (delete_is_answered_success plain_repr calm log_stream
           (request "Delete" "UUID") (LoggerScenarios.properties "UUID") (PStr "UUID")).
  - reflexivity.
  - reflexivity.
  - reflexivity.
  - reflexivity.
Defined.

Lemma unsupported_request_witness :
  (run calm (request "Update" "AnonymousMetric")).1 = Val tt ∧
  sends (trace (run calm (request "Update" "AnonymousMetric")).2) = [] ∧
  metrics (trace (run calm (request "Update" "AnonymousMetric")).2) = [] ∧
  event (run calm (request "Update" "AnonymousMetric")).2 =
    scrubbed_event "Updated" (LoggerScenarios.properties "AnonymousMetric")
      (request "Update" "AnonymousMetric") ∧
  last (trace (run calm (request "Update" "AnonymousMetric")).2) =
    Some (Log "RESPONSE:: Update Not supported").
Proof.
  apply (unsupported_request_gets_no_response plain_repr calm log_stream
           (request "Update" "AnonymousMetric") "Update"
           (LoggerScenarios.properties "AnonymousMetric") (PStr "AnonymousMetric")).
  - reflexivity.
  - reflexivity.
  - reflexivity.
  - discriminate.
  - discriminate.
Defined.

Lemma incomplete_event_witness :
  sends (trace (run calm {[ "RequestType" := PStr "Create" ]}).2) =
    [CfnSend {[ "RequestType" := PStr "Create" ]} "FAILED" ∅ (Some log_stream)] ∧
  metrics (trace (run calm {[ "RequestType" := PStr "Create" ]}).2) = [] ∧
  event (run calm {[ "RequestType" := PStr "Create" ]}).2 =
    {[ "RequestType" := PStr "Create" ]}.
Proof.
  apply (incomplete_event_is_answered_failed plain_repr calm log_stream
           {[ "RequestType" := PStr "Create" ]}).
  right. left. reflexivity.
Defined.

End DataLogger.
